(** * yahoo_historical.fetch: the Fetcher client and the conv_df normalization

    A shallow embedding of [src/yahoo_historical/fetch.py].

    - Python values, exceptions and the [%] string-formatting operator;
    - decoded JSON documents and the subscripting used by [conv_df];
    - the part of pandas that [conv_df] and [_get] call: a data frame as an
      ordered list of named columns over a range index;
    - the proleptic Gregorian calendar behind [pd.to_datetime(unit='s')] and
      [strftime('%Y-%m-%d')];
    - the [Fetcher] class as a state-and-exception monad over the instance
      dictionary, the clock and the network.

    What the embedding takes for granted:
    - the module [constants.py] that [fetch.py] imports is not part of the
      sources; its three names are parameters (record [constants]), and the
      results on URLs assume a template with five [%s] conversions;
    - a finite float is the rational it denotes, the other floats are
      [NaN] and the two infinities, and strings are ASCII;
    - instants are whole seconds, and [pd.to_datetime(unit='s')] converts
      those whose nanoseconds fit 64 bits, as [datetime64[ns]] holds them;
    - pandas is described by what it does on the documented response shape:
      columns are arrays, and [to_json] is the document it prints rather
      than its text. *)

From Stdlib Require Import ZArith QArith Qround String Ascii List Lia.
From Stdlib Require Import DecimalString DecimalNat DecimalPos DecimalZ.
From stdpp Require Import gmap strings list.

Set Warnings "-register-all".

Local Open Scope string_scope.
Local Open Scope Z_scope.

(** ** Python values and exceptions *)

(** The values an instance attribute or a format argument holds. *)
Inductive pyval :=
| PyStr (s : string)
| PyInt (z : Z).

(** [Union[int, float]], the type of the constructor's [start] and [end].
    A float is represented by the rational it denotes. *)
Inductive num :=
| NInt (z : Z)
| NFloat (q : Q).

Inductive exn :=
| ValueError (msg : string)
| TypeError (msg : string)
| KeyError (key : string)
| IndexError
| AttributeError (name : string)
| RequestException (detail : string)
| JSONDecodeError (detail : string)
| OverflowError (msg : string)
| OutOfBoundsDatetime (msg : string).

Inductive outcome (A : Type) :=
| Return (a : A)
| Raise (e : exn).
Arguments Return {A} a.
Arguments Raise {A} e.

#[global] Instance outcome_ret : MRet outcome := fun A a => Return a.
#[global] Instance outcome_bind : MBind outcome := fun A B f m =>
  match m with
  | Return a => f a
  | Raise e => Raise e
  end.
#[global] Instance outcome_fmap : FMap outcome := fun A B f m =>
  match m with
  | Return a => Return (f a)
  | Raise e => Raise e
  end.

(** [int(x)] on a finite number: truncation toward zero. *)
Definition py_int (x : num) : Z :=
  match x with
  | NInt z => z
  | NFloat q => Z.quot (Qnum q) (Zpos (Qden q))
  end.

(** What a caller can pass where a number is expected: a finite [int] or
    [float], or one of the floats [nan], [inf] and [-inf]. *)
Inductive number :=
| Finite (x : num)
| NaN
| Infinity (negative : bool).

(** [int(x)]: it raises on the floats that are not finite. *)
Definition int_ (x : number) : outcome Z :=
  match x with
  | Finite x => Return (py_int x)
  | NaN => Raise (ValueError "cannot convert float NaN to integer")
  | Infinity _ => Raise (OverflowError "cannot convert float infinity to integer")
  end.

(** [str(z)] for an integer: decimal digits, with a leading minus sign. *)
Definition str_of_Z (z : Z) : string := NilZero.string_of_int (Z.to_int z).
Definition str_of_nat (n : nat) : string := NilZero.string_of_uint (Nat.to_uint n).

Definition py_str (v : pyval) : string :=
  match v with
  | PyStr s => s
  | PyInt z => str_of_Z z
  end.

(** [str.upper] on ASCII text. *)
Definition upper_ascii (c : ascii) : ascii :=
  let n := nat_of_ascii c in
  if ((97 <=? n) && (n <=? 122))%nat then ascii_of_nat (n - 32) else c.

Fixpoint upper (s : string) : string :=
  match s with
  | EmptyString => EmptyString
  | String c s' => String (upper_ascii c) (upper s')
  end.

(** [v in l] for a list of strings: Python compares with [==], and an
    integer is never equal to a string. *)
Definition py_in (v : pyval) (l : list string) : bool :=
  match v with
  | PyStr s => bool_decide (s ∈ l)
  | PyInt _ => false
  end.

(** *** The [%] operator on a format string and a tuple

    Conversions [%s], [%d] (and [%i]) and the escape [%%]; the template is
    consumed left to right and the first error is the one raised. *)
Fixpoint py_format (t : string) (args : list pyval) : outcome string :=
  match t with
  | EmptyString =>
      match args with
      | [] => Return EmptyString
      | _ :: _ =>
          Raise (TypeError "not all arguments converted during string formatting")
      end
  | String c t' =>
      if Ascii.eqb c "%" then
        match t' with
        | EmptyString => Raise (ValueError "incomplete format")
        | String d t'' =>
            if Ascii.eqb d "%" then String "%"%char <$> py_format t'' args
            else if Ascii.eqb d "s" then
              match args with
              | [] => Raise (TypeError "not enough arguments for format string")
              | a :: args' => String.append (py_str a) <$> py_format t'' args'
              end
            else if Ascii.eqb d "d" || Ascii.eqb d "i" then
              match args with
              | [] => Raise (TypeError "not enough arguments for format string")
              | PyInt z :: args' => String.append (str_of_Z z) <$> py_format t'' args'
              | PyStr _ :: _ =>
                  Raise (TypeError "%d format: a real number is required, not str")
              end
            else Raise (ValueError "unsupported format character")
        end
      else String c <$> py_format t' args
  end.

(** ** Decoded JSON documents *)

Inductive json :=
| JNull
| JBool (b : bool)
| JInt (z : Z)
| JFloat (q : Q)
| JStr (s : string)
| JArr (items : list json)
| JObj (members : list (string * json)).

(** Lookup in an ordered list of bindings; the first binding of a key is the
    one found. *)
Fixpoint assoc {A : Type} (k : string) (l : list (string * A)) : option A :=
  match l with
  | [] => None
  | (k', v) :: l' => if String.eqb k k' then Some v else assoc k l'
  end.

(** [j[k]] with a string key. *)
Definition getitem_key (k : string) (j : json) : outcome json :=
  match j with
  | JObj kv =>
      match assoc k kv with
      | Some v => Return v
      | None => Raise (KeyError k)
      end
  | JArr _ => Raise (TypeError "list indices must be integers or slices, not str")
  | JStr _ => Raise (TypeError "string indices must be integers, not 'str'")
  | _ => Raise (TypeError "object is not subscriptable")
  end.

(** [j[i]] with a non-negative integer index. *)
Definition getitem_idx (i : nat) (j : json) : outcome json :=
  match j with
  | JArr l =>
      match l !! i with
      | Some v => Return v
      | None => Raise IndexError
      end
  | JObj _ => Raise (KeyError (str_of_nat i))
  | JStr s =>
      match String.get i s with
      | Some c => Return (JStr (String c EmptyString))
      | None => Raise IndexError
      end
  | _ => Raise (TypeError "object is not subscriptable")
  end.

(** [j.get(k, dflt)]: only a dict has the method. *)
Definition dict_get (k : string) (dflt : json) (j : json) : outcome json :=
  match j with
  | JObj kv =>
      match assoc k kv with
      | Some v => Return v
      | None => Return dflt
      end
  | _ => Raise (AttributeError "get")
  end.

(** An HTTP response, as far as [conv_df] looks at it: what [resp.json()]
    decodes, or nothing when the body is not JSON. *)
Inductive response :=
| Response (decoded : option json).

Definition response_json (r : response) : outcome json :=
  match r with
  | Response (Some j) => Return j
  | Response None => Raise (JSONDecodeError "Expecting value")
  end.

(** ** The calendar behind [pd.to_datetime(unit='s')] and [strftime]

    Days are counted from 1970-01-01; a timestamp is converted with no time
    zone, that is on the UTC calendar. The day count is split into 400-year
    eras of 146097 days that start on a 1 March. The functions of this
    section are the calendar alone; the bounds of the instants pandas can
    hold are those of [to_datetime_s] below. *)

Definition date : Type := Z * Z * Z.

(** Year (relative to the era), month and day of the day [doe] of an era. *)
Definition date_of_doe (doe : Z) : date :=
  let yoe := (doe - doe / 1460 + doe / 36524 - doe / 146096) / 365 in
  let doy := doe - (365 * yoe + yoe / 4 - yoe / 100) in
  let mp := (5 * doy + 2) / 153 in
  let d := doy - (153 * mp + 2) / 5 + 1 in
  let m := if mp <? 10 then mp + 3 else mp - 9 in
  (if m <=? 2 then yoe + 1 else yoe, m, d).

Definition shift_years (k : Z) (dt : date) : date :=
  let '(y, m, d) := dt in (y + k, m, d).

Definition civil_from_days (n : Z) : date :=
  let z := n + 719468 in
  shift_years (400 * (z / 146097)) (date_of_doe (z mod 146097)).

Fixpoint zeros (n : nat) (s : string) : string :=
  match n with
  | O => s
  | S n' => String "0" (zeros n' s)
  end.

(** [s] padded with zeros on the left to the width [w]. *)
Definition zfill (w : nat) (s : string) : string :=
  zeros (w - String.length s) s.

Definition fmt_year (y : Z) : string :=
  if y <? 0 then String "-" (zfill 4 (str_of_Z (- y))) else zfill 4 (str_of_Z y).
Definition fmt_2 (x : Z) : string := zfill 2 (str_of_Z x).

Definition fmt_date (dt : date) : string :=
  let '(y, m, d) := dt in
  fmt_year y +:+ "-" +:+ fmt_2 m +:+ "-" +:+ fmt_2 d.

(** [Timestamp(t, unit='s').strftime('%Y-%m-%d')]. *)
Definition strftime_Ymd (t : Z) : string := fmt_date (civil_from_days (t / 86400)).

(** ** Data frames

    The part of pandas that [fetch.py] calls. A frame is an ordered list of
    named columns over the range index [0 .. index_len - 1]. A cell holds a
    decoded JSON value, an instant (whole epoch seconds, UTC, within the
    bounds of [datetime64[ns]]) or the missing instant [NaT]. *)

Inductive cell :=
| Val (j : json)
| Timestamp (secs : Z)
| NaT.

Record DataFrame := {
  index_len : nat;
  columns : list (string * list cell)
}.

Definition column_names (df : DataFrame) : list string := (columns df).*1.

(** A column of the constructor's dictionary. Every entry of the response
    shape is an array; pandas would broadcast a scalar and align a mapping,
    which the embedding does not cover and reports as an error. *)
Definition as_column (v : json) : outcome (list cell) :=
  match v with
  | JArr l => Return (Val <$> l)
  | _ => Raise (TypeError "column is not an array")
  end.

(** [pd.DataFrame({k: v, ...})]: the columns in the order of the dictionary;
    arrays of different lengths are refused. *)
Definition pd_DataFrame (d : list (string * json)) : outcome DataFrame :=
  cols ← mapM (λ kv, c ← as_column kv.2; mret (kv.1, c)) d;
  match cols with
  | [] => Return {| index_len := 0; columns := [] |}
  | (_, c0) :: _ =>
      if forallb (λ kc, (length kc.2 =? length c0)%nat) cols
      then Return {| index_len := length c0; columns := cols |}
      else Raise (ValueError "All arrays must be of the same length")
  end.

(** [df[name]] *)
Definition df_getitem (name : string) (df : DataFrame) : outcome (list cell) :=
  match assoc name (columns df) with
  | Some c => Return c
  | None => Raise (KeyError name)
  end.

Fixpoint replace_column (name : string) (c : list cell)
    (cols : list (string * list cell)) : list (string * list cell) :=
  match cols with
  | [] => [(name, c)]
  | (k, c') :: cols' =>
      if String.eqb name k then (k, c) :: cols'
      else (k, c') :: replace_column name c cols'
  end.

(** [df[name] = series]: an existing column is replaced in place, a new one
    is appended as the last column. *)
Definition df_setitem (name : string) (c : list cell) (df : DataFrame)
    : outcome DataFrame :=
  if (length c =? index_len df)%nat
  then Return {| index_len := index_len df;
                 columns := replace_column name c (columns df) |}
  else Raise (ValueError "Length of values does not match length of index").

Fixpoint remove_column (name : string) (cols : list (string * list cell))
    : list (string * list cell) :=
  match cols with
  | [] => []
  | (k, c) :: cols' =>
      if String.eqb name k then cols' else (k, c) :: remove_column name cols'
  end.

(** [del df[name]] *)
Definition df_delitem (name : string) (df : DataFrame) : outcome DataFrame :=
  match assoc name (columns df) with
  | Some _ => Return {| index_len := index_len df;
                        columns := remove_column name (columns df) |}
  | None => Raise (KeyError name)
  end.

(** [df[cols]] with a list of column names. *)
Definition df_select (names : list string) (df : DataFrame) : outcome DataFrame :=
  cols ← mapM (λ k, c ← df_getitem k df; mret (k, c)) names;
  mret {| index_len := index_len df; columns := cols |}.

(** The instants of [datetime64[ns]]: a count of nanoseconds that fits 64
    bits, the least value being kept for [NaT]. *)
Definition NS_MAX : Z := 9223372036854775807.

Definition ns_in_bounds (ns : Z) : bool := (- NS_MAX <=? ns) && (ns <=? NS_MAX).

(** The error of a conversion out of bounds. The wording of its message
    differs between releases of pandas; the results below are stated for
    any message. *)
Definition OUT_OF_BOUNDS : exn :=
  OutOfBoundsDatetime "cannot convert input with unit 's'".

(** One element of [pd.to_datetime(series, unit='s')]: the seconds are
    turned into nanoseconds, which must be in bounds. *)
Definition to_datetime_s (c : cell) : outcome cell :=
  match c with
  | Val (JInt t) =>
      if ns_in_bounds (t * 1000000000) then Return (Timestamp t)
      else Raise OUT_OF_BOUNDS
  | Val (JFloat q) =>
      if ns_in_bounds (Qfloor (q * 1000000000)) then Return (Timestamp (Qfloor q))
      else Raise OUT_OF_BOUNDS
  | Val JNull => Return NaT
  | Val _ => Raise (ValueError "not convertible to datetime")
  | Timestamp t => Return (Timestamp t)
  | NaT => Return NaT
  end.

(** [lambda x: x.strftime('%Y-%m-%d')] *)
Definition strftime_cell (c : cell) : outcome cell :=
  match c with
  | Timestamp t => Return (Val (JStr (strftime_Ymd t)))
  | NaT => Raise (ValueError "NaTType does not support strftime")
  | Val _ => Raise (AttributeError "strftime")
  end.

(** [cols[-1:] + cols[:-1]] *)
Definition rotate_last_first {A : Type} (cols : list A) : list A :=
  drop (length cols - 1) cols ++ take (length cols - 1) cols.

(** ** [conv_df] *)

Definition conv_df (resp : response) : outcome DataFrame :=
  j ← response_json resp;
  chart ← getitem_key "chart" j;
  result ← getitem_key "result" chart;
  result0 ← getitem_idx 0 result;
  timestamps ← getitem_key "timestamp" result0;
  chart ← getitem_key "chart" j;
  result ← getitem_key "result" chart;
  result0 ← getitem_idx 0 result;
  indicators ← getitem_key "indicators" result0;
  quote ← getitem_key "quote" indicators;
  indicators ← getitem_idx 0 quote;
  close ← dict_get "close" (JArr []) indicators;
  open_ ← dict_get "open" (JArr []) indicators;
  high ← dict_get "high" (JArr []) indicators;
  low ← dict_get "low" (JArr []) indicators;
  volume ← dict_get "volume" (JArr []) indicators;
  df ← pd_DataFrame [("timestamp", timestamps); ("Open", open_); ("High", high);
                     ("Low", low); ("Close", close); ("Volume", volume)];
  ts ← df_getitem "timestamp" df;
  time ← mapM to_datetime_s ts;
  df ← df_setitem "time" time df;
  time ← df_getitem "time" df;
  date ← mapM strftime_cell time;
  df ← df_setitem "Date" date df;
  df ← df_delitem "time" df;
  df ← df_delitem "timestamp" df;
  let cols := column_names df in
  let cols := rotate_last_first cols in
  df_select cols df.

(** A response of the documented shape. *)
Definition chart_response (timestamps : list json) (quote : list (string * json))
    : response :=
  Response (Some (JObj [("chart", JObj [("result", JArr [JObj [
    ("timestamp", JArr timestamps);
    ("indicators", JObj [("quote", JArr [JObj quote])])]])])])).

(** [DataFrame.to_json()] with the default column orientation: an object
    of columns, each an object from the row label to the value. The
    function stands for the text of this document; the rounding of floats
    that pandas applies when it prints them is left out. *)
Definition encode_cell (c : cell) : json :=
  match c with
  | Val j => j
  | Timestamp t => JInt (t * 1000)
  | NaT => JNull
  end.

Definition to_json (df : DataFrame) : json :=
  JObj ((λ kc, (kc.1, JObj (imap (λ i c, (str_of_nat i, encode_cell c)) kc.2)))
          <$> columns df).

(** Parsing such a document back into a frame ([pd.read_json]): the columns
    are the members of the document, the index is made of the row labels
    that occur, and a label a column lacks reads as a missing value. *)
Definition read_column (kv : string * json) : outcome (string * list (string * json)) :=
  match kv.2 with
  | JObj rows => Return (kv.1, rows)
  | _ => Raise (ValueError "Mixing dicts with non-Series may lead to ambiguous ordering.")
  end.

Definition read_json (doc : json) : outcome DataFrame :=
  match doc with
  | JObj members =>
      cols ← mapM read_column members;
      let labels := remove_dups (concat ((λ kr, kr.2.*1) <$> cols)) in
      mret {| index_len := length labels;
              columns := (λ kr, (kr.1, (λ i, Val (default JNull (assoc i kr.2)))
                                           <$> labels)) <$> cols |}
  | _ => Raise (ValueError "Expected object or value")
  end.

(** ** The process: instance dictionary, clock and network *)

Record request := {
  req_url : string;
  req_headers : list (string * string)
}.

Record world := {
  self_dict : gmap string pyval;   (* the attributes of [self] *)
  clock : Q;                       (* what [time.time()] reads *)
  utc_offset : Z;                  (* local time zone of the process, seconds *)
  sent : list request;             (* requests made so far, oldest first *)
  remote : list request → request → string + response
                                   (* the service: a failure or a response *)
}.

Definition M (A : Type) : Type := world → outcome A * world.

#[global] Instance M_ret : MRet M := λ A a w, (Return a, w).
#[global] Instance M_bind : MBind M := λ A B f m w,
  match m w with
  | (Return a, w') => f a w'
  | (Raise e, w') => (Raise e, w')
  end.

Definition raise {A : Type} (e : exn) : M A := λ w, (Raise e, w).
Definition lift {A : Type} (o : outcome A) : M A := λ w, (o, w).

(** [self.name] *)
Definition getattr (name : string) : M pyval := λ w,
  match self_dict w !! name with
  | Some v => (Return v, w)
  | None => (Raise (AttributeError name), w)
  end.

(** [self.name = v] *)
Definition setattr (name : string) (v : pyval) : M unit := λ w,
  (Return tt, {| self_dict := <[name := v]> (self_dict w); clock := clock w;
                 utc_offset := utc_offset w; sent := sent w; remote := remote w |}).

(** A fresh instance, before [__init__] runs on it. *)
Definition object_new : M unit := λ w,
  (Return tt, {| self_dict := ∅; clock := clock w;
                 utc_offset := utc_offset w; sent := sent w; remote := remote w |}).

(** [time.time()] *)
Definition time_time : M num := λ w, (Return (NFloat (clock w)), w).

(** Time passing (an action of the environment): the clock reads [now]. *)
Definition sleep_until (now : Q) : M unit := λ w,
  (Return tt, {| self_dict := self_dict w; clock := now;
                 utc_offset := utc_offset w; sent := sent w; remote := remote w |}).

(** [requests.get(url, headers=headers)] *)
Definition requests_get (url : string) (headers : list (string * string))
    : M response := λ w,
  let rq := {| req_url := url; req_headers := headers |} in
  let w' := {| self_dict := self_dict w; clock := clock w;
               utc_offset := utc_offset w; sent := sent w ++ [rq];
               remote := remote w |} in
  match remote w (sent w) rq with
  | inl detail => (Raise (RequestException detail), w')
  | inr resp => (Return resp, w')
  end.

(** ** The class [Fetcher] *)

(** The names imported from [constants.py]. *)
Record constants := {
  API_URL : string;
  DATE_INTERVALS : list string;
  ONE_DAY_INTERVAL : string
}.

(** What [_get] returns: the frame, or the document [to_json] prints. *)
Inductive output :=
| Table (df : DataFrame)
| Serialized (doc : json).

Definition USER_AGENT : string :=
  "Mozilla/4.0 (compatible; MSIE 6.0; Windows NT 5.2; .NET CLR 1.0.3705;)".

Module Fetcher.
Section WithConstants.
Context (K : constants).

(** The defaults of [__init__]'s parameters: Python evaluates the default
    expressions once, when the [def] statement runs, and keeps the values
    in the function object. *)
Record defaults := {
  default_end : num;
  default_interval : string
}.

(** Running the [class Fetcher] statement (at import). *)
Definition def___init__ : M defaults :=
  now ← time_time;
  mret {| default_end := now; default_interval := ONE_DAY_INTERVAL K |}.

Definition __init__ (dflt : defaults) (ticker : string) (start : number)
    (end_ : option number) (interval : option string) : M unit :=
  let end_ := default (Finite (default_end dflt)) end_ in
  let interval := default (default_interval dflt) interval in
  setattr "ticker" (PyStr (upper ticker));;
  setattr "interval" (PyStr interval);;
  s ← lift (int_ start);
  setattr "start" (PyInt s);;
  e ← lift (int_ end_);
  setattr "end" (PyInt e).

(** [Fetcher(ticker, start, end, interval)] *)
Definition call (dflt : defaults) (ticker : string) (start : number)
    (end_ : option number) (interval : option string) : M unit :=
  object_new;; __init__ dflt ticker start end_ interval.

(** [Fetcher(ticker, start, end, interval)] with finite numbers. *)
Definition new (dflt : defaults) (ticker : string) (start : num)
    (end_ : option num) (interval : option string) : M unit :=
  call dflt ticker (Finite start) (Finite <$> end_) interval.

Definition create_url (event : string) : M string :=
  ticker ← getattr "ticker";
  start ← getattr "start";
  end_ ← getattr "end";
  interval ← getattr "interval";
  lift (py_format (API_URL K) [ticker; start; end_; interval; PyStr event]).

Definition invalid_interval_msg : string :=
  "Incorrect interval: valid intervals are "
  +:+ String.concat ", " (DATE_INTERVALS K).

Definition _get (event : string) (as_dataframe : bool) : M output :=
  interval ← getattr "interval";
  if negb (py_in interval (DATE_INTERVALS K))
  then raise (ValueError invalid_interval_msg)
  else
    url ← create_url event;
    data ← requests_get url [("User-agent", USER_AGENT)];
    dataframe ← lift (conv_df data);
    if as_dataframe then mret (Table dataframe)
    else mret (Serialized (to_json dataframe)).

Definition get_historical (as_dataframe : bool) : M output :=
  _get "history" as_dataframe.
Definition get_dividends (as_dataframe : bool) : M output :=
  _get "div" as_dataframe.
Definition get_splits (as_dataframe : bool) : M output :=
  _get "split" as_dataframe.

End WithConstants.
End Fetcher.

(** *** A concrete setting for examples *)

(** Modelled from the spec: the values of [constants.py], which is not among
    the sources. The spec gives the query string
    [?period1=<start>&period2=<end>&interval=<interval>&events=<event>] with
    the ticker in the path, daily, weekly and monthly intervals, and the
    daily one as the default. Host and path are placeholders. *)
Definition example_constants : constants := {|
  API_URL := "https://finance.example/chart/%s?period1=%s&period2=%s&interval=%s&events=%s";
  DATE_INTERVALS := ["1d"; "1wk"; "1mo"];
  ONE_DAY_INTERVAL := "1d"
|}.

Definition one_row_response : response :=
  chart_response [JInt 1609459200]
    [("open", JArr [JFloat 130]); ("high", JArr [JFloat 133]);
     ("low", JArr [JFloat 129]); ("close", JArr [JFloat 132]);
     ("volume", JArr [JInt 1000000])].

Definition no_volume_response : response :=
  chart_response [JInt 1609459200]
    [("open", JArr [JFloat 130]); ("high", JArr [JFloat 133]);
     ("low", JArr [JFloat 129]); ("close", JArr [JFloat 132])].

(** A process whose service always answers with [resp]. *)
Definition mock_world (now : Q) (resp : response) : world := {|
  self_dict := ∅; clock := now; utc_offset := 0; sent := [];
  remote := λ _ _, inr resp
|}.

(** A client built in a mock process, with the given interval. *)
Definition example_client (interval : string) : world :=
  (Fetcher.new
     {| Fetcher.default_end := NFloat 0; Fetcher.default_interval := "1d" |}
     "aapl" (NInt 1609459200) (Some (NInt 1609545600)) (Some interval)
     (mock_world 0 one_row_response)).2.

(** The class is defined, time passes until the clock reads [now], and a
    client is built without [end]. *)
Definition late_client (now : Q) : M () :=
  dflt ← Fetcher.def___init__ example_constants;
  sleep_until now;;
  Fetcher.new dflt "aapl" (NInt 0) None None.

(** What the example client's [get_historical] leaves behind. *)
Definition example_table : DataFrame := {|
  index_len := 1;
  columns := [("Date", [Val (JStr "2021-01-01")]);
              ("Open", [Val (JFloat 130)]); ("High", [Val (JFloat 133)]);
              ("Low", [Val (JFloat 129)]); ("Close", [Val (JFloat 132)]);
              ("Volume", [Val (JInt 1000000)])]
|}.

Definition scenario : M output :=
  dflt ← Fetcher.def___init__ example_constants;
  Fetcher.new dflt "aapl" (NInt 1609459200) (Some (NInt 1609545600)) (Some "1d");;
  Fetcher.get_historical example_constants true.

(** ** The calendar in the words of the specification

    The UTC calendar date of an instant, by counting days one at a time from
    1 January 1970 with the Gregorian leap-year rule. *)

Definition is_leap (y : Z) : bool :=
  (y mod 4 =? 0) && (negb (y mod 100 =? 0) || (y mod 400 =? 0)).

Definition days_in_month (y m : Z) : Z :=
  if m =? 2 then (if is_leap y then 29 else 28)
  else if (m =? 4) || (m =? 6) || (m =? 9) || (m =? 11) then 30
  else 31.

Definition next_day (dt : date) : date :=
  let '(y, m, d) := dt in
  if d <? days_in_month y m then (y, m, d + 1)
  else if m <? 12 then (y, m + 1, 1)
  else (y + 1, 1, 1).

Definition prev_day (dt : date) : date :=
  let '(y, m, d) := dt in
  if 1 <? d then (y, m, d - 1)
  else if 1 <? m then (y, m - 1, days_in_month y (m - 1))
  else (y - 1, 12, 31).

Definition epoch_date : date := (1970, 1, 1).

(** The date [n] days after (before, for a negative [n]) the epoch. *)
Definition date_after_days (n : Z) : date :=
  match n with
  | 0 => epoch_date
  | Zpos p => Pos.iter next_day epoch_date p
  | Zneg p => Pos.iter prev_day epoch_date p
  end.

(** An instant [t] seconds from the epoch lies in day [floor (t / 86400)]. *)
Definition utc_calendar_date (t : Z) : date := date_after_days (t / 86400).

(** *** Auxiliary notions for the calendar proofs

    Years that start on 1 March: [year_start y] is the number of days from
    1 March of year 0 to 1 March of year [y], and [date_of_yd y doy] the
    date of the day [doy] of that year. The [_l] variants of the stepping
    functions take the leap flag of the year instead of the year. *)

Definition year_start (y : Z) : Z := 365 * y + y / 4 - y / 100 + y / 400.

(** The year of the era in which the day [doe] of the era falls. *)
Definition yoe_of (doe : Z) : Z :=
  (doe - doe / 1460 + doe / 36524 - doe / 146096) / 365.

Definition date_of_yd (y doy : Z) : date :=
  let mp := (5 * doy + 2) / 153 in
  let d := doy - (153 * mp + 2) / 5 + 1 in
  let m := if mp <? 10 then mp + 3 else mp - 9 in
  (if m <=? 2 then y + 1 else y, m, d).

Definition days_in_month_l (leap : bool) (m : Z) : Z :=
  if m =? 2 then (if leap then 29 else 28)
  else if (m =? 4) || (m =? 6) || (m =? 9) || (m =? 11) then 30
  else 31.

Definition next_day_l (leap : bool) (dt : date) : date :=
  let '(y, m, d) := dt in
  if d <? days_in_month_l leap m then (y, m, d + 1)
  else if m <? 12 then (y, m + 1, 1)
  else (y + 1, 1, 1).

Definition prev_day_l (leap : bool) (dt : date) : date :=
  let '(y, m, d) := dt in
  if 1 <? d then (y, m, d - 1)
  else if 1 <? m then (y, m - 1, days_in_month_l leap (m - 1))
  else (y - 1, 12, 31).

Definition date_eqb (a b : date) : bool :=
  let '(y, m, d) := a in let '(y', m', d') := b in
  (y =? y') && (m =? m') && (d =? d').

(** The leap flag that matters for a date of a March-based year: [l], the
    flag of the next civil year, in January and February, and [l2], the flag
    of the civil year itself, from March on. *)
Definition flag_of (l l2 : bool) (dt : date) : bool :=
  if dt.1.2 <=? 2 then l else l2.

Definition leap_day (l : bool) : Z := if l then 1 else 0.

(** Day [doy] of a March-based year and the day after it are one calendar
    step apart, in both directions; the last day of the year is followed by
    1 March. *)
Definition in_year_ok (l l2 : bool) (doy : Z) : bool :=
  let dt := date_of_yd 0 doy in
  if doy <? 364 + leap_day l then
    let dt' := date_of_yd 0 (doy + 1) in
    date_eqb (next_day_l (flag_of l l2 dt) dt) dt'
    && date_eqb (prev_day_l (flag_of l l2 dt') dt') dt
  else if doy =? 364 + leap_day l then
    let dt' := date_of_yd 1 0 in
    date_eqb (next_day_l (flag_of l l2 dt) dt) dt'
    && date_eqb (prev_day_l l dt') dt
  else true.

(** [p] holds on the [2 ^ k] integers from [lo] on. *)
Fixpoint holds_on (k : nat) (lo : Z) (p : Z → bool) : bool :=
  match k with
  | O => p lo
  | S k' => holds_on k' lo p && holds_on k' (lo + 2 ^ Z.of_nat k') p
  end.



(** The characters of a string. *)
Fixpoint chars (s : string) : list ascii :=
  match s with
  | EmptyString => []
  | String c s' => c :: chars s'
  end.

Definition is_digit (c : ascii) : bool :=
  let n := nat_of_ascii c in ((48 <=? n) && (n <=? 57))%nat.


(** A template with exactly five [%s] conversions between six literal
    pieces, none of which holds a percent sign. *)
Definition five_slot_template (t p0 p1 p2 p3 p4 p5 : string) : Prop :=
  t = p0 +:+ "%s" +:+ p1 +:+ "%s" +:+ p2 +:+ "%s" +:+ p3 +:+ "%s" +:+ p4
      +:+ "%s" +:+ p5
  ∧ Forall (λ p, "%"%char ∉ chars p) [p0; p1; p2; p3; p4; p5].

(** The cell of column [name] in row [i]. *)
Definition cell_at (name : string) (i : nat) (df : DataFrame) : option cell :=
  c ← assoc name (columns df); c !! i.

(** Every column is as long as the index. *)
Definition well_formed (df : DataFrame) : Prop :=
  Forall (λ kc, length kc.2 = index_len df) (columns df).

(** [chart.result[0]] and [indicators.quote[0]] of a response. *)
Definition result0 (resp : response) : outcome json :=
  j ← response_json resp;
  chart ← getitem_key "chart" j;
  result ← getitem_key "result" chart;
  getitem_idx 0 result.

Definition quote0 (r0 : json) : outcome json :=
  indicators ← getitem_key "indicators" r0;
  quote ← getitem_key "quote" indicators;
  getitem_idx 0 quote.

Definition INDICATOR_KEYS : list string := ["open"; "high"; "low"; "close"; "volume"].

(** *** Auxiliary notion for [conv_df]

    The part of [conv_df] after the six arrays have been extracted. *)
Definition assemble (timestamps open_ high low close volume : json)
    : outcome DataFrame :=
  df ← pd_DataFrame [("timestamp", timestamps); ("Open", open_); ("High", high);
                     ("Low", low); ("Close", close); ("Volume", volume)];
  ts ← df_getitem "timestamp" df;
  time ← mapM to_datetime_s ts;
  df ← df_setitem "time" time df;
  time ← df_getitem "time" df;
  date ← mapM strftime_cell time;
  df ← df_setitem "Date" date df;
  df ← df_delitem "time" df;
  df ← df_delitem "timestamp" df;
  df_select (rotate_last_first (column_names df)) df.

(** The frame [conv_df] builds from timestamps and five full columns. *)
Definition normalized (ts : list Z) (o h l c v : list json) : DataFrame := {|
  index_len := length ts;
  columns := [("Date", (λ t, Val (JStr (strftime_Ymd t))) <$> ts);
              ("Open", Val <$> o); ("High", Val <$> h); ("Low", Val <$> l);
              ("Close", Val <$> c); ("Volume", Val <$> v)]
|}.

(** *** Auxiliary notions for the effects of the methods *)

(** The computation leaves the whole process state as it found it. *)
Definition no_effect {A : Type} (m : M A) : Prop := ∀ w, (m w).2 = w.

(** The computation leaves the instance dictionary as it found it. *)
Definition keeps_self {A : Type} (m : M A) : Prop :=
  ∀ w, self_dict (m w).2 = self_dict w.

(** The outcome is a [ValueError] whose message starts with a capital I, as
    the message of the interval check does. *)
Definition raises_I {A : Type} (o : outcome A) : bool :=
  match o with
  | Raise (ValueError (String "I" _)) => true
  | _ => false
  end.

(** No run of the computation ends in such a [ValueError]. *)
Definition never_raises_I {A : Type} (m : M A) : Prop :=
  ∀ w, raises_I (m w).1 = false.

(** The same process in another time zone. *)
Definition with_utc_offset (tz : Z) (w : world) : world :=
  {| self_dict := self_dict w; clock := clock w; utc_offset := tz;
     sent := sent w; remote := remote w |}.

(** The computation does not look at the time zone of the process. *)
Definition tz_blind {A : Type} (m : M A) : Prop :=
  ∀ tz w, m (with_utc_offset tz w) = ((m w).1, with_utc_offset tz (m w).2).

(** *** Auxiliary notions for the shape of the date string *)

(** Month and day of [date_of_yd 0 doy] lie in the calendar, and the day
    falls in January or February exactly from day 306 of the year on. *)
Definition yd_valid_ok (l l2 : bool) (doy : Z) : bool :=
  if doy <=? 364 + leap_day l then
    let dt := date_of_yd 0 doy in
    let m := dt.1.2 in
    let d := dt.2 in
    (1 <=? m) && (m <=? 12) && (1 <=? d)
    && (d <=? days_in_month_l (flag_of l l2 dt) m)
    && Bool.eqb (306 <=? doy) (m <=? 2)
  else true.

(** [s] reads [dddd-dd-dd]. *)
Definition is_Ymd (s : string) : bool :=
  match chars s with
  | [y1; y2; y3; y4; s1; m1; m2; s2; d1; d2] =>
      forallb is_digit [y1; y2; y3; y4; m1; m2; d1; d2]
      && Ascii.eqb s1 "-" && Ascii.eqb s2 "-"
  | _ => false
  end.

Definition digits_n (n : nat) (s : string) : bool :=
  (length (chars s) =? n)%nat && forallb is_digit (chars s).

Definition year_text_ok (y : Z) : bool :=
  (y <? 1) || (9999 <? y) || digits_n 4 (fmt_year y).

Definition two_text_ok (x : Z) : bool :=
  (x <? 1) || (31 <? x) || digits_n 2 (fmt_2 x).

(** *** Further notions for the normalization *)

(** What [conv_df] does with [chart.result[0]] once it has it. *)
Definition normalize_result (r0 : json) : outcome DataFrame :=
  timestamps ← getitem_key "timestamp" r0;
  indicators ← quote0 r0;
  close ← dict_get "close" (JArr []) indicators;
  open_ ← dict_get "open" (JArr []) indicators;
  high ← dict_get "high" (JArr []) indicators;
  low ← dict_get "low" (JArr []) indicators;
  volume ← dict_get "volume" (JArr []) indicators;
  assemble timestamps open_ high low close volume.

(** A timestamp array with gaps: [None] stands for a JSON [null]. *)
Definition timestamp_json (o : option Z) : json :=
  match o with
  | Some t => JInt t
  | None => JNull
  end.

(** The frame without rows. *)
Definition empty_table : DataFrame := {|
  index_len := 0;
  columns := [("Date", []); ("Open", []); ("High", []); ("Low", []);
              ("Close", []); ("Volume", [])]
|}.

(** Responses for the examples: the service's answer for an unknown ticker,
    and the one-row response with members [conv_df] does not read (a [meta]
    object, an [adjclose] indicator, a second result, a second quote) and
    with the quote's members in another order. *)
Definition not_found_response : response :=
  Response (Some (JObj [("chart", JObj [("result", JNull);
    ("error", JObj [("code", JStr "Not Found")])])])).

Definition noisy_response : response :=
  Response (Some (JObj [("chart", JObj [
    ("error", JNull);
    ("result", JArr [
       JObj [("meta", JObj [("currency", JStr "USD")]);
             ("indicators", JObj [
                ("adjclose", JArr [JObj [("adjclose", JArr [JFloat 131])]]);
                ("quote", JArr [
                   JObj [("volume", JArr [JInt 1000000]); ("close", JArr [JFloat 132]);
                         ("low", JArr [JFloat 129]); ("high", JArr [JFloat 133]);
                         ("open", JArr [JFloat 130])];
                   JObj [("open", JArr [])]])]);
             ("timestamp", JArr [JInt 1609459200])];
       JObj [("timestamp", JArr [])]])])])).

Definition gap_response : response :=
  chart_response [JInt 1609459200; JNull]
    [("open", JArr [JFloat 130; JNull]); ("high", JArr [JFloat 133; JNull]);
     ("low", JArr [JFloat 129; JNull]); ("close", JArr [JFloat 132; JNull]);
     ("volume", JArr [JInt 1000000; JNull])].

(** The response of [gap_response] with a first timestamp in the year
    2286. *)
Definition far_gap_response : response :=
  chart_response [JInt 10000000000; JNull]
    [("open", JArr [JFloat 130; JNull]); ("high", JArr [JFloat 133; JNull]);
     ("low", JArr [JFloat 129; JNull]); ("close", JArr [JFloat 132; JNull]);
     ("volume", JArr [JInt 1000000; JNull])].

(** One complete row whose timestamp is in the year 2286. *)
Definition far_response : response :=
  chart_response [JInt 10000000000]
    [("open", JArr [JFloat 130]); ("high", JArr [JFloat 133]);
     ("low", JArr [JFloat 129]); ("close", JArr [JFloat 132]);
     ("volume", JArr [JInt 1000000])].

Definition short_volume_response : response :=
  chart_response [JInt 1609459200; JInt 1609545600]
    [("open", JArr [JFloat 130; JFloat 131]); ("high", JArr [JFloat 133; JFloat 134]);
     ("low", JArr [JFloat 129; JFloat 130]); ("close", JArr [JFloat 132; JFloat 133]);
     ("volume", JArr [JInt 1000000])].

(** *** Further notions for the fetch operations *)

(** The request a fetch makes for [url]. *)
Definition fetch_request (url : string) : request :=
  {| req_url := url; req_headers := [("User-agent", USER_AGENT)] |}.

(** The process after the request [rq] has been made. *)
Definition with_request (rq : request) (w : world) : world :=
  {| self_dict := self_dict w; clock := clock w; utc_offset := utc_offset w;
     sent := sent w ++ [rq]; remote := remote w |}.

(** The value [_get] returns for a frame, in either mode. *)
Definition output_mode (flag : bool) (df : DataFrame) : output :=
  if flag then Table df else Serialized (to_json df).

(** What the service's answer to [rq], given the requests [history] made
    before, becomes in the hands of [_get]. *)
Definition answer (w : world) (history : list request) (rq : request)
    (flag : bool) : outcome output :=
  match remote w history rq with
  | inl detail => Raise (RequestException detail)
  | inr resp => output_mode flag <$> conv_df resp
  end.



(** *** Further notions for the date strings *)

(** The day number of a calendar date, counted from 1970-01-01. *)
Definition days_from_civil (dt : date) : Z :=
  let '(y, m, d) := dt in
  let y' := if m <=? 2 then y - 1 else y in
  let mp := if 2 <? m then m - 3 else m + 9 in
  year_start y' + (153 * mp + 2) / 5 + d - 1 - 719468.

(** Month and day of the day [doy] of a March-based year give [doy] back. *)
Definition doy_back_ok (doy : Z) : bool :=
  (365 <? doy)
  || (let dt := date_of_yd 0 doy in
      let mp := if 2 <? dt.1.2 then dt.1.2 - 3 else dt.1.2 + 9 in
      (153 * mp + 2) / 5 + dt.2 - 1 =? doy).

(** The number a string of decimal digits denotes. *)
Fixpoint read_digits (acc : Z) (l : list ascii) : Z :=
  match l with
  | [] => acc
  | c :: l' => read_digits (10 * acc + (Z.of_nat (nat_of_ascii c) - 48)) l'
  end.

Definition number_of (s : string) : Z := read_digits 0 (chars s).

Definition year_back_ok (y : Z) : bool :=
  (y <? 1) || (9999 <? y) || (number_of (fmt_year y) =? y).

Definition two_back_ok (x : Z) : bool :=
  (x <? 1) || (31 <? x) || (number_of (fmt_2 x) =? x).

(** The instants of the years 1 to 9999. *)
Definition in_years_1_9999 (t : Z) : Prop := -62135596800 <= t < 253402300800.

(** The seconds that [datetime64[ns]] can hold: from 1677-09-21 to
    2262-04-11. *)
Definition in_ns_range (t : Z) : Prop := -9223372036 <= t <= 9223372036.

(** The date a string of the form [dddd-dd-dd] denotes. *)
Definition parse_Ymd (s : string) : option date :=
  match chars s with
  | [y1; y2; y3; y4; s1; m1; m2; s2; d1; d2] =>
      if forallb is_digit [y1; y2; y3; y4; m1; m2; d1; d2]
         && Ascii.eqb s1 "-" && Ascii.eqb s2 "-"
      then Some (read_digits 0 [y1; y2; y3; y4], read_digits 0 [m1; m2],
                 read_digits 0 [d1; d2])
      else None
  | _ => None
  end.

(** The cell holds a string that reads as the date [d]. *)
Definition holds_date (d : date) (c : option cell) : Prop :=
  ∃ s, c = Some (Val (JStr s)) ∧ parse_Ymd s = Some d.

(** The calendar date on the clocks of a zone [tz] seconds east of UTC. *)
Definition local_calendar_date (tz t : Z) : date := utc_calendar_date (t + tz).


(** * Properties *)

(** ** Examples *)

Example py_format_five :
  py_format "/%s?period1=%s&period2=%s&interval=%s&events=%s"
            [PyStr "AAPL"; PyInt 1; PyInt 2; PyStr "1d"; PyStr "history"]
  = Return "/AAPL?period1=1&period2=2&interval=1d&events=history".
Proof. reflexivity. Qed.

Example py_format_short :
  py_format "%s-%s" [PyStr "a"] = Raise (TypeError "not enough arguments for format string").
Proof. reflexivity. Qed.

Example date_1609459200 : strftime_Ymd 1609459200 = "2021-01-01".
Proof. reflexivity. Qed.

Example date_before_epoch : strftime_Ymd (-1) = "1969-12-31".
Proof. reflexivity. Qed.

Example date_leap_day : strftime_Ymd 951868799 = "2000-02-29".
Proof. reflexivity. Qed.
Example date_epoch : strftime_Ymd 0 = "1970-01-01".
Proof. reflexivity. Qed.
Example date_first : strftime_Ymd (-9223372036) = "1677-09-21".
Proof. reflexivity. Qed.
Example date_last : strftime_Ymd 9223372036 = "2262-04-11".
Proof. reflexivity. Qed.
Example to_datetime_last :
  to_datetime_s (Val (JInt 9223372036)) = Return (Timestamp 9223372036).
Proof. reflexivity. Qed.
Example to_datetime_too_late :
  to_datetime_s (Val (JInt 9223372037)) = Raise OUT_OF_BOUNDS.
Proof. reflexivity. Qed.
Example to_datetime_too_early :
  to_datetime_s (Val (JInt (-9223372037))) = Raise OUT_OF_BOUNDS.
Proof. reflexivity. Qed.
Example int_nan :
  int_ NaN = Raise (ValueError "cannot convert float NaN to integer").
Proof. reflexivity. Qed.
Example int_fraction : int_ (Finite (NFloat (-7 # 2))) = Return (-3).
Proof. reflexivity. Qed.

Example conv_df_one_row :
  conv_df (chart_response [JInt 1609459200]
             [("open", JArr [JFloat 130]); ("high", JArr [JFloat 133]);
              ("low", JArr [JFloat 129]); ("close", JArr [JFloat 132]);
              ("volume", JArr [JInt 1000000])])
  = Return {| index_len := 1;
              columns := [("Date", [Val (JStr "2021-01-01")]);
                          ("Open", [Val (JFloat 130)]);
                          ("High", [Val (JFloat 133)]);
                          ("Low", [Val (JFloat 129)]);
                          ("Close", [Val (JFloat 132)]);
                          ("Volume", [Val (JInt 1000000)])] |}.
Proof. reflexivity. Qed.

Example conv_df_missing_volume :
  conv_df (chart_response [JInt 1609459200]
             [("open", JArr [JFloat 130]); ("high", JArr [JFloat 133]);
              ("low", JArr [JFloat 129]); ("close", JArr [JFloat 132])])
  = Raise (ValueError "All arrays must be of the same length").
Proof. reflexivity. Qed.

Example scenario_table :
  (scenario (mock_world 0 one_row_response)).1
  = Return (Table {| index_len := 1;
              columns := [("Date", [Val (JStr "2021-01-01")]);
                          ("Open", [Val (JFloat 130)]);
                          ("High", [Val (JFloat 133)]);
                          ("Low", [Val (JFloat 129)]);
                          ("Close", [Val (JFloat 132)]);
                          ("Volume", [Val (JInt 1000000)])] |}).
Proof. vm_compute. reflexivity. Qed.

Example scenario_request :
  sent (scenario (mock_world 0 one_row_response)).2
  = [{| req_url := "https://finance.example/chart/AAPL?period1=1609459200&period2=1609545600&interval=1d&events=history";
        req_headers := [("User-agent", USER_AGENT)] |}].
Proof. vm_compute. reflexivity. Qed.

(** ** The calendar: [civil_from_days] counts days as the Gregorian calendar does *)

Lemma date_eqb_eq a b : date_eqb a b = true -> a = b.
Proof.
  destruct a as [[y m] d], b as [[y' m'] d']. simpl.
  rewrite !andb_true_iff, !Z.eqb_eq. intros [[-> ->] ->]. reflexivity.
Qed.

Lemma holds_on_spec k : forall lo p, holds_on k lo p = true ->
  forall z, lo <= z < lo + 2 ^ Z.of_nat k -> p z = true.
Proof.
  induction k as [|k IH]; intros lo p H z Hz.
  - simpl in *. replace z with lo by lia. exact H.
  - cbn [holds_on] in H. apply andb_true_iff in H as [H1 H2].
    rewrite Nat2Z.inj_succ, Z.pow_succ_r in Hz by lia.
    destruct (Z_lt_ge_dec z (lo + 2 ^ Z.of_nat k)).
    + apply (IH lo); [assumption | lia].
    + apply (IH (lo + 2 ^ Z.of_nat k)); [assumption | lia].
Qed.

Lemma in_year_checked l l2 : holds_on 9 0 (in_year_ok l l2) = true.
Proof. destruct l, l2; vm_compute; reflexivity. Qed.

Lemma yoe_of_range doe :
  0 <= doe <= 146096 ->
  0 <= yoe_of doe <= 399 /\
  year_start (yoe_of doe) <= doe < year_start (yoe_of doe + 1).
Proof.
  intros H. unfold yoe_of, year_start.
  repeat split; Z.div_mod_to_equations; lia.
Qed.

Lemma year_start_era e y : year_start (400 * e + y) = 146097 * e + year_start y.
Proof. unfold year_start. Z.div_mod_to_equations; lia. Qed.

Lemma year_length y :
  year_start (y + 1) - year_start y = 365 + leap_day (is_leap (y + 1)).
Proof.
  unfold year_start, is_leap, leap_day.
  destruct (_ && _) eqn:E; Z.div_mod_to_equations; lia.
Qed.

Lemma is_leap_era e y : is_leap (400 * e + y) = is_leap y.
Proof.
  unfold is_leap.
  replace (400 * e + y) with (y + (100 * e) * 4) at 1 by lia.
  replace (400 * e + y) with (y + (4 * e) * 100) at 1 by lia.
  replace (400 * e + y) with (y + e * 400) by lia.
  rewrite !Z.mod_add by lia. reflexivity.
Qed.

Lemma date_of_yd_shift y doy : date_of_yd y doy = shift_years y (date_of_yd 0 doy).
Proof.
  unfold date_of_yd, shift_years. destruct (_ <=? 2); f_equal; f_equal; lia.
Qed.

Lemma year_start_mono y y' : y < y' -> year_start (y + 1) <= year_start y'.
Proof. unfold year_start. intros. Z.div_mod_to_equations; lia. Qed.

Lemma year_unique z y y' :
  year_start y <= z < year_start (y + 1) ->
  year_start y' <= z < year_start (y' + 1) -> y = y'.
Proof.
  intros H H'. destruct (Z.lt_trichotomy y y') as [Hlt | [-> | Hlt]]; [|reflexivity|].
  - pose proof (year_start_mono _ _ Hlt). lia.
  - pose proof (year_start_mono _ _ Hlt). lia.
Qed.

Lemma date_of_doe_yd doe :
  0 <= doe <= 146096 ->
  date_of_doe doe = date_of_yd (yoe_of doe) (doe - year_start (yoe_of doe)).
Proof.
  intros H. destruct (yoe_of_range doe H) as [Hy _].
  unfold date_of_doe, date_of_yd. fold (yoe_of doe).
  replace (doe - year_start (yoe_of doe))
    with (doe - (365 * yoe_of doe + yoe_of doe / 4 - yoe_of doe / 100)).
  - reflexivity.
  - unfold year_start. rewrite (Z.div_small (yoe_of doe) 400) by lia. lia.
Qed.

Lemma civil_from_days_exists n :
  exists y, year_start y <= n + 719468 < year_start (y + 1) /\
    civil_from_days n = date_of_yd y (n + 719468 - year_start y).
Proof.
  set (z := n + 719468).
  assert (Hdoe : 0 <= z mod 146097 <= 146096)
    by (pose proof (Z.mod_pos_bound z 146097); lia).
  destruct (yoe_of_range _ Hdoe) as [Hy Hr].
  assert (Hz : z = 146097 * (z / 146097) + z mod 146097)
    by (apply Z.div_mod; lia).
  exists (400 * (z / 146097) + yoe_of (z mod 146097)). split.
  - rewrite <- Z.add_assoc, !year_start_era. lia.
  - unfold civil_from_days. fold z. rewrite date_of_doe_yd by assumption.
    rewrite year_start_era.
    rewrite (date_of_yd_shift (yoe_of _)), (date_of_yd_shift (_ + _)).
    replace (z - _) with (z mod 146097 - year_start (yoe_of (z mod 146097))) by lia.
    destruct (date_of_yd 0 _) as [[y m] d]. simpl. f_equal. f_equal. lia.
Qed.

Lemma civil_from_days_year n y :
  year_start y <= n + 719468 < year_start (y + 1) ->
  civil_from_days n = date_of_yd y (n + 719468 - year_start y).
Proof.
  intros H. destruct (civil_from_days_exists n) as (y' & H' & ->).
  rewrite (year_unique _ _ _ H H'). reflexivity.
Qed.

Lemma next_day_flag y m d : next_day (y, m, d) = next_day_l (is_leap y) (y, m, d).
Proof. reflexivity. Qed.
Lemma prev_day_flag y m d : prev_day (y, m, d) = prev_day_l (is_leap y) (y, m, d).
Proof. reflexivity. Qed.

Lemma next_day_l_shift l k dt :
  next_day_l l (shift_years k dt) = shift_years k (next_day_l l dt).
Proof.
  destruct dt as [[y m] d]. unfold next_day_l, shift_years.
  repeat destruct (_ <? _); f_equal; f_equal; lia.
Qed.
Lemma prev_day_l_shift l k dt :
  prev_day_l l (shift_years k dt) = shift_years k (prev_day_l l dt).
Proof.
  destruct dt as [[y m] d]. unfold prev_day_l, shift_years.
  repeat destruct (_ <? _); f_equal; f_equal; lia.
Qed.

(** The leap flag of the civil year of a date of the March-based year [y]. *)
Lemma flag_of_yd y doy :
  let dt := date_of_yd y doy in
  is_leap dt.1.1 = flag_of (is_leap (y + 1)) (is_leap y) (date_of_yd 0 doy).
Proof.
  unfold date_of_yd, flag_of. simpl. destruct (_ <=? 2); reflexivity.
Qed.

Lemma next_day_yd y doy :
  next_day (date_of_yd y doy)
  = shift_years y (next_day_l (flag_of (is_leap (y + 1)) (is_leap y) (date_of_yd 0 doy))
                              (date_of_yd 0 doy)).
Proof.
  rewrite <- next_day_l_shift, <- date_of_yd_shift, <- flag_of_yd.
  destruct (date_of_yd y doy) as [[y' m] d]. reflexivity.
Qed.
Lemma prev_day_yd y doy :
  prev_day (date_of_yd y doy)
  = shift_years y (prev_day_l (flag_of (is_leap (y + 1)) (is_leap y) (date_of_yd 0 doy))
                              (date_of_yd 0 doy)).
Proof.
  rewrite <- prev_day_l_shift, <- date_of_yd_shift, <- flag_of_yd.
  destruct (date_of_yd y doy) as [[y' m] d]. reflexivity.
Qed.

Lemma in_year_ok_at y doy :
  0 <= doy <= 365 -> in_year_ok (is_leap (y + 1)) (is_leap y) doy = true.
Proof.
  intros H. apply (holds_on_spec 9 0); [apply in_year_checked | simpl; lia].
Qed.

Lemma step_in_year y doy :
  0 <= doy < 364 + leap_day (is_leap (y + 1)) ->
  next_day (date_of_yd y doy) = date_of_yd y (doy + 1) /\
  prev_day (date_of_yd y (doy + 1)) = date_of_yd y doy.
Proof.
  intros H.
  assert (Hb : 0 <= doy <= 365) by (unfold leap_day in H; destruct (is_leap _); lia).
  pose proof (in_year_ok_at y doy Hb) as Hok. unfold in_year_ok in Hok.
  destruct (Z.ltb_spec doy (364 + leap_day (is_leap (y + 1)))); [|lia].
  apply andb_true_iff in Hok as [H1 H2].
  apply date_eqb_eq in H1, H2.
  rewrite next_day_yd, prev_day_yd, H1, H2, <- !date_of_yd_shift. split; reflexivity.
Qed.

Lemma step_year_end y doy :
  doy = 364 + leap_day (is_leap (y + 1)) ->
  next_day (date_of_yd y doy) = date_of_yd (y + 1) 0 /\
  prev_day (date_of_yd (y + 1) 0) = date_of_yd y doy.
Proof.
  intros H.
  assert (Hb : 0 <= doy <= 365) by (unfold leap_day in H; destruct (is_leap _); lia).
  pose proof (in_year_ok_at y doy Hb) as Hok. unfold in_year_ok in Hok.
  destruct (Z.ltb_spec doy (364 + leap_day (is_leap (y + 1)))); [lia|].
  destruct (Z.eqb_spec doy (364 + leap_day (is_leap (y + 1)))); [|lia].
  apply andb_true_iff in Hok as [H1 H2].
  apply date_eqb_eq in H1, H2.
  rewrite next_day_yd, H1. split.
  - change (date_of_yd 1 0) with (1, 3, 1).
    change (date_of_yd (y + 1) 0) with (y + 1, 3, 1).
    unfold shift_years. f_equal. f_equal. lia.
  - change (date_of_yd (y + 1) 0) with (y + 1, 3, 1).
    rewrite prev_day_flag.
    assert (E : (y + 1, 3, 1) = shift_years y (date_of_yd 1 0)).
    { change (date_of_yd 1 0) with (1, 3, 1). unfold shift_years. f_equal. f_equal. lia. }
    rewrite E, prev_day_l_shift, H2, <- date_of_yd_shift. reflexivity.
Qed.

Lemma civil_from_days_succ n :
  civil_from_days (n + 1) = next_day (civil_from_days n) /\
  prev_day (civil_from_days (n + 1)) = civil_from_days n.
Proof.
  destruct (civil_from_days_exists n) as (y & Hy & ->).
  pose proof (year_length y) as Hlen.
  pose proof (year_length (y + 1)) as Hlen'.
  assert (0 <= leap_day (is_leap (y + 1 + 1)) <= 1)
    by (destruct (is_leap (y + 1 + 1)); simpl; lia).
  destruct (Z_lt_ge_dec (n + 1 + 719468) (year_start (y + 1))) as [Hin | Hout].
  - rewrite (civil_from_days_year (n + 1) y) by lia.
    replace (n + 1 + 719468 - year_start y) with (n + 719468 - year_start y + 1) by lia.
    destruct (step_in_year y (n + 719468 - year_start y)) as [-> ->]; [lia|].
    split; reflexivity.
  - rewrite (civil_from_days_year (n + 1) (y + 1)) by lia.
    replace (n + 1 + 719468 - year_start (y + 1)) with 0 by lia.
    destruct (step_year_end y (n + 719468 - year_start y)) as [-> ->]; [lia|].
    split; reflexivity.
Qed.

Lemma date_after_days_civil n : date_after_days n = civil_from_days n.
Proof.
  destruct n as [|p|p]; simpl.
  - reflexivity.
  - induction p using Pos.peano_ind.
    + reflexivity.
    + rewrite Pos.iter_succ, IHp, Pos2Z.inj_succ.
      symmetry. apply civil_from_days_succ.
  - induction p using Pos.peano_ind.
    + reflexivity.
    + rewrite Pos.iter_succ, IHp.
      replace (Z.neg (Pos.succ p)) with (Z.neg p - 1) by lia.
      rewrite <- (proj2 (civil_from_days_succ (Z.neg p - 1))).
      f_equal. f_equal. lia.
Qed.

(** ** Strings: numerals and the format operator *)

Lemma chars_app s1 s2 : chars (s1 +:+ s2) = (chars s1 ++ chars s2)%list.
Proof. induction s1 as [|c s1 IH]; simpl; [reflexivity | by rewrite IH]. Qed.

Lemma append_empty_r s : s +:+ "" = s.
Proof. induction s as [|c s IH]; [reflexivity | exact (f_equal (String c) IH)]. Qed.




Lemma to_uint_nonnil n : Nat.to_uint n ≠ Decimal.Nil.
Proof.
  intros E. pose proof (DecimalNat.Unsigned.of_to n) as H.
  rewrite E in H. simpl in H. subst n. discriminate E.
Qed.

Lemma str_of_nat_inj n n' : str_of_nat n = str_of_nat n' → n = n'.
Proof.
  unfold str_of_nat. intros H.
  apply (f_equal NilZero.uint_of_string) in H.
  rewrite !NilZero.usu in H by apply to_uint_nonnil.
  injection H as H. by apply DecimalNat.Unsigned.to_uint_inj.
Qed.

Lemma py_format_char c t args :
  Ascii.eqb c "%" = false →
  py_format (String c t) args = String c <$> py_format t args.
Proof. intros H. cbn [py_format]. by rewrite H. Qed.

Lemma py_format_literal p t args :
  "%"%char ∉ chars p →
  py_format (p +:+ t) args = String.append p <$> py_format t args.
Proof.
  induction p as [|c p IH]; intros Hp.
  - change ("" +:+ t) with t. by destruct (py_format t args).
  - change (String c p +:+ t) with (String c (p +:+ t)).
    rewrite py_format_char.
    + rewrite IH; [by destruct (py_format t args) | intros ?; apply Hp; by right].
    + destruct (Ascii.eqb_spec c "%") as [->|]; [exfalso; apply Hp; left | done].
Qed.

Lemma py_format_literal_end p :
  "%"%char ∉ chars p → py_format p [] = Return p.
Proof.
  intros Hp. rewrite <- (append_empty_r p) at 1.
  rewrite py_format_literal by assumption. simpl. by rewrite append_empty_r.
Qed.

Lemma py_format_s t a args :
  py_format ("%s" +:+ t) (a :: args) = String.append (py_str a) <$> py_format t args.
Proof. reflexivity. Qed.

Lemma py_format_five_slots t p0 p1 p2 p3 p4 p5 a b c d e :
  five_slot_template t p0 p1 p2 p3 p4 p5 →
  py_format t [a; b; c; d; e]
  = Return (p0 +:+ py_str a +:+ p1 +:+ py_str b +:+ p2 +:+ py_str c +:+ p3
            +:+ py_str d +:+ p4 +:+ py_str e +:+ p5).
Proof.
  intros [-> Hp].
  repeat match goal with
         | H : Forall _ (_ :: _) |- _ => apply Forall_cons in H as [? H]
         end.
  repeat (rewrite py_format_literal by assumption; rewrite py_format_s).
  by rewrite py_format_literal_end.
Qed.

(** ** [conv_df] *)

Lemma bind_Return_inv {A B : Type} (m : outcome A) (f : A → outcome B) (b : B) :
  m ≫= f = Return b → ∃ a, m = Return a ∧ f a = Return b.
Proof. destruct m as [a|e]; [by exists a | discriminate]. Qed.

Lemma ns_in_bounds_seconds t :
  ns_in_bounds (t * 1000000000) = true ↔ in_ns_range t.
Proof.
  unfold ns_in_bounds, NS_MAX, in_ns_range.
  rewrite andb_true_iff, !Z.leb_le. lia.
Qed.

Lemma to_datetime_s_in_range t :
  in_ns_range t → to_datetime_s (Val (JInt t)) = Return (Timestamp t).
Proof. intros H. cbn. by rewrite (proj2 (ns_in_bounds_seconds t) H). Qed.

Lemma to_datetime_s_out_of_range t :
  ¬ in_ns_range t → to_datetime_s (Val (JInt t)) = Raise OUT_OF_BOUNDS.
Proof.
  intros H. cbn. destruct (ns_in_bounds (t * 1000000000)) eqn:E; [|done].
  by apply ns_in_bounds_seconds in E.
Qed.

Lemma mapM_to_datetime ts :
  Forall in_ns_range ts →
  mapM to_datetime_s (Val <$> (JInt <$> ts)) = Return (Timestamp <$> ts).
Proof.
  induction 1 as [|t ts Ht _ IH]; [reflexivity|].
  cbn [fmap list_fmap mapM]. cbn [fmap list_fmap] in IH.
  rewrite (to_datetime_s_in_range t Ht), IH. reflexivity.
Qed.

Lemma mapM_strftime ts :
  mapM strftime_cell (Timestamp <$> ts)
  = Return ((λ t, Val (JStr (strftime_Ymd t))) <$> ts).
Proof. induction ts as [|t ts IH]; [reflexivity|]. cbn. rewrite IH. reflexivity. Qed.

(** [conv_df] is [assemble] on the arrays found in the response, with the
    empty array for an indicator the quote lacks. *)
Lemma conv_df_extract resp r0 tsj q :
  result0 resp = Return r0 →
  getitem_key "timestamp" r0 = Return tsj →
  quote0 r0 = Return (JObj q) →
  conv_df resp
  = assemble tsj (default (JArr []) (assoc "open" q))
                 (default (JArr []) (assoc "high" q))
                 (default (JArr []) (assoc "low" q))
                 (default (JArr []) (assoc "close" q))
                 (default (JArr []) (assoc "volume" q)).
Proof.
  unfold result0, quote0, conv_df. intros H0 Hts Hq.
  apply bind_Return_inv in H0 as (j & Hj & H0). rewrite Hj. cbn.
  apply bind_Return_inv in H0 as (chart & Hc & H0). rewrite Hc. cbn.
  apply bind_Return_inv in H0 as (result & Hr & H0). rewrite Hr. cbn. rewrite H0. cbn.
  apply bind_Return_inv in Hq as (ind & Hi & Hq). rewrite Hts. cbn. rewrite Hi. cbn.
  apply bind_Return_inv in Hq as (quote & Hq1 & Hq2). rewrite Hq1. cbn. rewrite Hq2. cbn.
  by repeat destruct (assoc _ q).
Qed.

Lemma assemble_full ts o h l c v :
  length o = length ts → length h = length ts → length l = length ts →
  length c = length ts → length v = length ts →
  Forall in_ns_range ts →
  assemble (JArr (JInt <$> ts)) (JArr o) (JArr h) (JArr l) (JArr c) (JArr v)
  = Return (normalized ts o h l c v).
Proof.
  intros Ho Hh Hl Hc Hv Hr. unfold assemble, pd_DataFrame. cbn.
  rewrite !length_fmap, Ho, Hh, Hl, Hc, Hv, !Nat.eqb_refl. cbn.
  rewrite (mapM_to_datetime ts Hr). cbn.
  unfold df_setitem. cbn. rewrite !length_fmap, Nat.eqb_refl. cbn.
  rewrite mapM_strftime. cbn. rewrite !length_fmap, Nat.eqb_refl. reflexivity.
Qed.

Lemma assemble_ragged tsj o h l c v :
  length o ≠ length tsj ∨ length h ≠ length tsj ∨ length l ≠ length tsj
  ∨ length c ≠ length tsj ∨ length v ≠ length tsj →
  assemble (JArr tsj) (JArr o) (JArr h) (JArr l) (JArr c) (JArr v)
  = Raise (ValueError "All arrays must be of the same length").
Proof.
  intros H. unfold assemble, pd_DataFrame. cbn. rewrite !length_fmap.
  destruct (Nat.eqb_spec (length o) (length tsj));
    destruct (Nat.eqb_spec (length h) (length tsj));
    destruct (Nat.eqb_spec (length l) (length tsj));
    destruct (Nat.eqb_spec (length c) (length tsj));
    destruct (Nat.eqb_spec (length v) (length tsj));
    rewrite ?Nat.eqb_refl, ?andb_false_r; cbn; try reflexivity.
  exfalso. destruct H as [?|[?|[?|[?|?]]]]; contradiction.
Qed.

Lemma normalized_well_formed ts o h l c v :
  length o = length ts → length h = length ts → length l = length ts →
  length c = length ts → length v = length ts →
  well_formed (normalized ts o h l c v).
Proof.
  intros. unfold well_formed, normalized. cbn.
  repeat constructor; cbn; rewrite length_fmap; done.
Qed.

(** C2 (what the code does). When the response holds at least one timestamp
    and the quote lacks one of the five indicator keys, the others being
    arrays, [conv_df] does not return a frame: the empty default column and
    the timestamp column differ in length and the frame constructor raises
    [ValueError]. *)
Theorem conv_df_absent_indicator_raises resp r0 q (tsj : list json) (k : string) :
  result0 resp = Return r0 →
  getitem_key "timestamp" r0 = Return (JArr tsj) →
  quote0 r0 = Return (JObj q) →
  tsj ≠ [] →
  k ∈ INDICATOR_KEYS →
  assoc k q = None →
  (∀ k' x, k' ∈ INDICATOR_KEYS → assoc k' q = Some x → ∃ a, x = JArr a) →
  conv_df resp = Raise (ValueError "All arrays must be of the same length").
Proof.
  intros H0 Hts Hq Hne Hk Habs Harr.
  rewrite (conv_df_extract _ _ _ _ H0 Hts Hq).
  assert (Hcol : ∀ k', k' ∈ INDICATOR_KEYS →
            ∃ a, default (JArr []) (assoc k' q) = JArr a
                 ∧ (k' = k → a = [])).
  { intros k' Hk'. destruct (assoc k' q) as [x|] eqn:E.
    - destruct (Harr k' x Hk' E) as [a ->]. exists a. split; [done|].
      intros ->. congruence.
    - by exists []. }
  destruct (Hcol "open") as (o & -> & Eo); [unfold INDICATOR_KEYS; repeat constructor|].
  destruct (Hcol "high") as (h & -> & Eh); [unfold INDICATOR_KEYS; repeat constructor|].
  destruct (Hcol "low") as (l & -> & El); [unfold INDICATOR_KEYS; repeat constructor|].
  destruct (Hcol "close") as (c & -> & Ec); [unfold INDICATOR_KEYS; repeat constructor|].
  destruct (Hcol "volume") as (v & -> & Ev); [unfold INDICATOR_KEYS; repeat constructor|].
  apply assemble_ragged.
  assert (length tsj ≠ 0%nat) by (destruct tsj; [done | cbn; lia]).
  unfold INDICATOR_KEYS in Hk.
  rewrite !elem_of_cons, elem_of_nil in Hk.
  destruct Hk as [->|[->|[->|[->|[->|[]]]]]].
  - rewrite (Eo eq_refl). cbn. lia.
  - rewrite (Eh eq_refl). cbn. lia.
  - rewrite (El eq_refl). cbn. lia.
  - rewrite (Ec eq_refl). cbn. lia.
  - rewrite (Ev eq_refl). cbn. lia.
Qed.

Lemma conv_df_absent_indicator_raises_witness :
  let r0 := JObj [("timestamp", JArr [JInt 1609459200]);
                  ("indicators", JObj [("quote", JArr [JObj
                     [("open", JArr [JFloat 130]); ("high", JArr [JFloat 133]);
                      ("low", JArr [JFloat 129]); ("close", JArr [JFloat 132])]])])] in
  result0 no_volume_response = Return r0 ∧
  conv_df no_volume_response
  = Raise (ValueError "All arrays must be of the same length").
Proof.
  split; [reflexivity|].
  eapply (conv_df_absent_indicator_raises no_volume_response _ _
            [JInt 1609459200] "volume"); try reflexivity.
  - discriminate.
  - unfold INDICATOR_KEYS. repeat constructor.
  - intros k' x Hk'. unfold INDICATOR_KEYS in Hk'.
    rewrite !elem_of_cons, elem_of_nil in Hk'.
    destruct Hk' as [->|[->|[->|[->|[->|[]]]]]]; cbn; intros [= <-]; eauto.
Defined.

(** ** Which exceptions the normalization can raise *)

Lemma raises_I_bind {A B : Type} (m : outcome A) (f : A → outcome B) :
  raises_I m = false → (∀ a, raises_I (f a) = false) → raises_I (m ≫= f) = false.
Proof. destruct m as [a|e]; [intros _ Hf; apply Hf | intros He _; exact He]. Qed.

Lemma raises_I_fmap {A B : Type} (g : A → B) (m : outcome A) :
  raises_I m = false → raises_I (g <$> m) = false.
Proof. by destruct m. Qed.

Lemma raises_I_mapM {A B : Type} (f : A → outcome B) (l : list A) :
  (∀ x, raises_I (f x) = false) → raises_I (mapM f l) = false.
Proof.
  intros Hf. induction l as [|x l IH]; [reflexivity|]. cbn.
  apply raises_I_bind; [apply Hf | intros y].
  apply raises_I_bind; [apply IH | reflexivity].
Qed.

Lemma raises_I_getitem_key k j : raises_I (getitem_key k j) = false.
Proof. destruct j; try reflexivity. cbn. by destruct (assoc k members). Qed.

Lemma raises_I_getitem_idx i j : raises_I (getitem_idx i j) = false.
Proof.
  destruct j; try reflexivity; cbn.
  - by destruct (String.get i s).
  - by destruct (items !! i).
Qed.

Lemma raises_I_dict_get k d j : raises_I (dict_get k d j) = false.
Proof. destruct j; try reflexivity. cbn. by destruct (assoc k members). Qed.

Lemma raises_I_response_json r : raises_I (response_json r) = false.
Proof. by destruct r as [[j|]]. Qed.

Lemma raises_I_as_column v : raises_I (as_column v) = false.
Proof. by destruct v. Qed.

Lemma raises_I_pd_DataFrame d : raises_I (pd_DataFrame d) = false.
Proof.
  unfold pd_DataFrame. apply raises_I_bind.
  - apply raises_I_mapM. intros kv.
    apply raises_I_bind; [apply raises_I_as_column | reflexivity].
  - intros [|[k c0] cols]; [reflexivity|]. by destruct (forallb _ _).
Qed.

Lemma raises_I_df_getitem k df : raises_I (df_getitem k df) = false.
Proof. unfold df_getitem. by destruct (assoc k (columns df)). Qed.

Lemma raises_I_df_setitem k c df : raises_I (df_setitem k c df) = false.
Proof. unfold df_setitem. by destruct (_ =? _)%nat. Qed.

Lemma raises_I_df_delitem k df : raises_I (df_delitem k df) = false.
Proof. unfold df_delitem. by destruct (assoc k (columns df)). Qed.

Lemma raises_I_df_select ks df : raises_I (df_select ks df) = false.
Proof.
  unfold df_select. apply raises_I_bind; [|reflexivity].
  apply raises_I_mapM. intros k.
  apply raises_I_bind; [apply raises_I_df_getitem | reflexivity].
Qed.

Lemma raises_I_to_datetime_s c : raises_I (to_datetime_s c) = false.
Proof.
  destruct c as [j| |]; try reflexivity.
  destruct j; try reflexivity; cbn; by destruct (ns_in_bounds _).
Qed.

Lemma raises_I_strftime_cell c : raises_I (strftime_cell c) = false.
Proof. by destruct c. Qed.

Create HintDb raises_I.
#[local] Hint Resolve raises_I_getitem_key raises_I_getitem_idx raises_I_dict_get
  raises_I_response_json raises_I_pd_DataFrame raises_I_df_getitem
  raises_I_df_setitem raises_I_df_delitem raises_I_df_select
  raises_I_to_datetime_s raises_I_strftime_cell raises_I_mapM : raises_I.

Lemma raises_I_conv_df resp : raises_I (conv_df resp) = false.
Proof.
  unfold conv_df.
  repeat first [ apply raises_I_df_select
               | apply raises_I_bind; [by auto with raises_I | intros ?] ].
Qed.

Lemma raises_I_py_format t : ∀ args, raises_I (py_format t args) = false.
Proof.
  assert (H : ∀ t, (∀ args, raises_I (py_format t args) = false)
                 ∧ (∀ c args, raises_I (py_format (String c t) args) = false)).
  { clear t. intros t. induction t as [|d t [IH1 IH2]].
    - split; [by intros [|a args]|]. intros c args. cbn.
      destruct (Ascii.eqb c "%"); [reflexivity|]. by destruct args.
    - split; [apply IH2|]. intros c args. cbn [py_format].
      destruct (Ascii.eqb c "%"); [|apply raises_I_fmap, IH2].
      destruct (Ascii.eqb d "%"); [apply raises_I_fmap, IH1|].
      destruct (Ascii.eqb d "s").
      { destruct args; [reflexivity | apply raises_I_fmap, IH1]. }
      destruct (_ || _); [|reflexivity].
      destruct args as [|[s|z] args]; try reflexivity.
      apply raises_I_fmap, IH1. }
  apply H.
Qed.

(** ** Effects of the methods *)

Lemma no_effect_bind {A B : Type} (m : M A) (f : A → M B) :
  no_effect m → (∀ a, no_effect (f a)) → no_effect (m ≫= f).
Proof.
  intros Hm Hf w. unfold mbind, M_bind. specialize (Hm w).
  destruct (m w) as [[a|e] w']; simpl in *; subst w'; [apply Hf | reflexivity].
Qed.

Lemma no_effect_getattr name : no_effect (getattr name).
Proof. intros w. unfold getattr. by destruct (self_dict w !! name). Qed.

Lemma no_effect_lift {A : Type} (o : outcome A) : no_effect (lift o).
Proof. by intros w. Qed.

Lemma no_effect_create_url K event : no_effect (Fetcher.create_url K event).
Proof.
  unfold Fetcher.create_url.
  repeat (apply no_effect_bind; [apply no_effect_getattr | intros ?]).
  apply no_effect_lift.
Qed.

Lemma keeps_self_bind {A B : Type} (m : M A) (f : A → M B) :
  keeps_self m → (∀ a, keeps_self (f a)) → keeps_self (m ≫= f).
Proof.
  intros Hm Hf w. unfold mbind, M_bind. specialize (Hm w).
  destruct (m w) as [[a|e] w']; simpl in *; [by rewrite Hf | done].
Qed.

Lemma keeps_self_no_effect {A : Type} (m : M A) : no_effect m → keeps_self m.
Proof. intros H w. by rewrite H. Qed.

Lemma keeps_self_requests_get url headers : keeps_self (requests_get url headers).
Proof. intros w. unfold requests_get. by destruct (remote w _ _). Qed.

Lemma keeps_self_get K event flag : keeps_self (Fetcher._get K event flag).
Proof.
  unfold Fetcher._get.
  apply keeps_self_bind; [apply keeps_self_no_effect, no_effect_getattr | intros v].
  destruct (negb _); [by intros w|].
  apply keeps_self_bind;
    [apply keeps_self_no_effect, no_effect_create_url | intros url].
  apply keeps_self_bind; [apply keeps_self_requests_get | intros data].
  apply keeps_self_bind; [by intros w | intros df].
  by destruct flag; intros w.
Qed.

Lemma never_raises_I_bind {A B : Type} (m : M A) (f : A → M B) :
  never_raises_I m → (∀ a, never_raises_I (f a)) → never_raises_I (m ≫= f).
Proof.
  intros Hm Hf w. unfold mbind, M_bind. specialize (Hm w).
  destruct (m w) as [[a|e] w']; simpl in *; [apply Hf | exact Hm].
Qed.

Lemma never_raises_I_getattr name : never_raises_I (getattr name).
Proof. intros w. unfold getattr. by destruct (self_dict w !! name). Qed.

Lemma never_raises_I_lift {A : Type} (o : outcome A) :
  raises_I o = false → never_raises_I (lift o).
Proof. by intros H w. Qed.

Lemma never_raises_I_requests_get url headers :
  never_raises_I (requests_get url headers).
Proof. intros w. unfold requests_get. by destruct (remote w _ _). Qed.

Lemma never_raises_I_create_url K event :
  never_raises_I (Fetcher.create_url K event).
Proof.
  unfold Fetcher.create_url.
  repeat (apply never_raises_I_bind; [apply never_raises_I_getattr | intros ?]).
  apply never_raises_I_lift, raises_I_py_format.
Qed.

Lemma getattr_some name v w :
  self_dict w !! name = Some v → getattr name w = (Return v, w).
Proof. intros H. unfold getattr. by rewrite H. Qed.

Lemma py_in_true v l : py_in v l = true ↔ ∃ i, v = PyStr i ∧ i ∈ l.
Proof.
  destruct v as [s|z]; cbn.
  - rewrite bool_decide_eq_true. split; [by exists s | by intros (i & [= ->] & ?)].
  - split; [done | by intros (i & ? & _)].
Qed.

Lemma py_in_false v l : py_in v l = false ↔ ∀ i, v = PyStr i → i ∉ l.
Proof.
  destruct v as [s|z]; cbn.
  - rewrite bool_decide_eq_false. split; [by intros H i [= <-] | by intros H; apply H].
  - split; [by intros _ i | done].
Qed.

(** An interval outside the enumeration: [_get] raises at once. *)
Lemma get_invalid_interval K event flag w v :
  self_dict w !! "interval" = Some v →
  py_in v (DATE_INTERVALS K) = false →
  Fetcher._get K event flag w
  = (Raise (ValueError (Fetcher.invalid_interval_msg K)), w).
Proof.
  intros Hv Hin. unfold Fetcher._get, mbind, M_bind.
  rewrite (getattr_some _ _ _ Hv), Hin. reflexivity.
Qed.

(** An interval of the enumeration: whatever [_get] raises, it is not the
    error of the interval check. *)
Lemma get_valid_interval K event flag w v :
  self_dict w !! "interval" = Some v →
  py_in v (DATE_INTERVALS K) = true →
  raises_I (Fetcher._get K event flag w).1 = false.
Proof.
  intros Hv Hin. unfold Fetcher._get. unfold mbind at 1. unfold M_bind at 1.
  rewrite (getattr_some _ _ _ Hv), Hin. cbn [negb].
  clear Hv. revert w. apply never_raises_I_bind; [apply never_raises_I_create_url|].
  intros url. apply never_raises_I_bind; [apply never_raises_I_requests_get|].
  intros data.
  apply never_raises_I_bind; [apply never_raises_I_lift, raises_I_conv_df|].
  intros df. by destruct flag; intros w.
Qed.

Lemma append_assoc s1 s2 s3 : (s1 +:+ s2) +:+ s3 = s1 +:+ (s2 +:+ s3).
Proof.
  induction s1 as [|c s1 IH]; [reflexivity|]. exact (f_equal (String c) IH).
Qed.

Lemma concat_member sep l i :
  i ∈ l → ∃ pre post, String.concat sep l = pre +:+ i +:+ post.
Proof.
  induction l as [|x l IH]; intros Hi; [by apply elem_of_nil in Hi|].
  apply elem_of_cons in Hi as [-> | Hi].
  - destruct l as [|y l].
    + exists "", "". cbn. by rewrite append_empty_r.
    + exists "", (sep +:+ String.concat sep (y :: l)). reflexivity.
  - destruct (IH Hi) as (pre & post & E). destruct l as [|y l].
    + by apply elem_of_nil in Hi.
    + exists (x +:+ sep +:+ pre), post.
      change (String.concat sep (x :: y :: l))
        with (x +:+ sep +:+ String.concat sep (y :: l)).
      by rewrite E, !append_assoc.
Qed.

Lemma invalid_interval_msg_I K : raises_I (A := output)
  (Raise (ValueError (Fetcher.invalid_interval_msg K))) = true.
Proof. reflexivity. Qed.

(** ** The interval check *)

(** C3. When the stored interval is not one of [DATE_INTERVALS], each of
    [get_historical], [get_dividends] and [get_splits] raises the
    [ValueError] of the interval check and leaves the process as it was, so
    that no request has been made; the message holds every accepted
    interval. When the stored interval is one of [DATE_INTERVALS], none of
    the three raises that error. *)
Theorem interval_validation K w v :
  self_dict w !! "interval" = Some v →
  ((∀ i, v = PyStr i → i ∉ DATE_INTERVALS K) →
   ∀ flag,
     let err := Raise (ValueError (Fetcher.invalid_interval_msg K)) in
     Fetcher.get_historical K flag w = (err, w)
     ∧ Fetcher.get_dividends K flag w = (err, w)
     ∧ Fetcher.get_splits K flag w = (err, w)
     ∧ sent (Fetcher.get_historical K flag w).2 = sent w
     ∧ sent (Fetcher.get_dividends K flag w).2 = sent w
     ∧ sent (Fetcher.get_splits K flag w).2 = sent w)
  ∧ (∀ i, i ∈ DATE_INTERVALS K →
       ∃ pre post, Fetcher.invalid_interval_msg K = pre +:+ i +:+ post)
  ∧ ((∃ i, v = PyStr i ∧ i ∈ DATE_INTERVALS K) →
     ∀ flag,
       let err := Raise (ValueError (Fetcher.invalid_interval_msg K)) in
       (Fetcher.get_historical K flag w).1 ≠ err
       ∧ (Fetcher.get_dividends K flag w).1 ≠ err
       ∧ (Fetcher.get_splits K flag w).1 ≠ err).
Proof.
  intros Hv. split; [|split].
  - intros Hbad flag. apply py_in_false in Hbad.
    unfold Fetcher.get_historical, Fetcher.get_dividends, Fetcher.get_splits.
    rewrite !(get_invalid_interval K _ flag w v Hv Hbad). done.
  - intros i Hi. destruct (concat_member ", " _ _ Hi) as (pre & post & E).
    exists ("Incorrect interval: valid intervals are " +:+ pre), post.
    unfold Fetcher.invalid_interval_msg. by rewrite E, append_assoc.
  - intros Hok flag. apply py_in_true in Hok.
    unfold Fetcher.get_historical, Fetcher.get_dividends, Fetcher.get_splits.
    repeat split; intros E;
      match type of E with
      | (Fetcher._get K ?ev flag w).1 = _ =>
          pose proof (get_valid_interval K ev flag w v Hv Hok) as H;
          rewrite E in H; discriminate H
      end.
Qed.

Lemma interval_validation_witness :
  let K := example_constants in
  let err := Raise (ValueError (Fetcher.invalid_interval_msg K)) in
  (let w := example_client "5m" in
   self_dict w !! "interval" = Some (PyStr "5m")
   ∧ (∀ i, PyStr "5m" = PyStr i → i ∉ DATE_INTERVALS K)
   ∧ ∀ flag,
       Fetcher.get_historical K flag w = (err, w)
       ∧ Fetcher.get_dividends K flag w = (err, w)
       ∧ Fetcher.get_splits K flag w = (err, w)
       ∧ sent (Fetcher.get_historical K flag w).2 = sent w
       ∧ sent (Fetcher.get_dividends K flag w).2 = sent w
       ∧ sent (Fetcher.get_splits K flag w).2 = sent w)
  ∧ (let w := example_client "1wk" in
     self_dict w !! "interval" = Some (PyStr "1wk")
     ∧ (∃ i, PyStr "1wk" = PyStr i ∧ i ∈ DATE_INTERVALS K)
     ∧ ∀ flag,
         (Fetcher.get_historical K flag w).1 ≠ err
         ∧ (Fetcher.get_dividends K flag w).1 ≠ err
         ∧ (Fetcher.get_splits K flag w).1 ≠ err).
Proof.
  assert (H5 : self_dict (example_client "5m") !! "interval" = Some (PyStr "5m"))
    by (vm_compute; reflexivity).
  assert (H1 : self_dict (example_client "1wk") !! "interval" = Some (PyStr "1wk"))
    by (vm_compute; reflexivity).
  assert (Hbad : ∀ i, PyStr "5m" = PyStr i → i ∉ DATE_INTERVALS example_constants)
    by (intros i [= <-]; by apply (bool_decide_unpack _)).
  assert (Hok : ∃ i, PyStr "1wk" = PyStr i ∧ i ∈ DATE_INTERVALS example_constants)
    by (exists "1wk"; split; [reflexivity | by apply (bool_decide_unpack _)]).
  split.
  - split; [exact H5|]. split; [exact Hbad|].
    exact (proj1 (interval_validation example_constants _ _ H5) Hbad).
  - split; [exact H1|]. split; [exact Hok|].
    exact (proj2 (proj2 (interval_validation example_constants _ _ H1)) Hok).
Defined.

Example invalid_interval_run :
  (Fetcher.get_historical example_constants true (example_client "5m")).1
  = Raise (ValueError "Incorrect interval: valid intervals are 1d, 1wk, 1mo").
Proof. vm_compute. reflexivity. Qed.

(** ** The stored parameters *)

(** C8. [create_url], [_get], [get_historical], [get_dividends] and
    [get_splits] leave the instance dictionary, hence the stored ticker,
    start, end and interval, as they found it, whatever the outcome. *)
Theorem query_parameters_not_mutated K event flag w :
  self_dict (Fetcher.create_url K event w).2 = self_dict w
  ∧ self_dict (Fetcher._get K event flag w).2 = self_dict w
  ∧ self_dict (Fetcher.get_historical K flag w).2 = self_dict w
  ∧ self_dict (Fetcher.get_dividends K flag w).2 = self_dict w
  ∧ self_dict (Fetcher.get_splits K flag w).2 = self_dict w.
Proof.
  repeat split.
  - by rewrite no_effect_create_url.
  - apply keeps_self_get.
  - apply keeps_self_get.
  - apply keeps_self_get.
  - apply keeps_self_get.
Qed.

(** What the constructor leaves behind. *)
Lemma new_run dflt ticker start end_ interval w :
  Fetcher.new dflt ticker start end_ interval w
  = (Return (),
     {| self_dict :=
          <["end" := PyInt (py_int (default (Fetcher.default_end dflt) end_))]>
          (<["start" := PyInt (py_int start)]>
          (<["interval" := PyStr (default (Fetcher.default_interval dflt) interval)]>
          (<["ticker" := PyStr (upper ticker)]> ∅)));
        clock := clock w; utc_offset := utc_offset w; sent := sent w;
        remote := remote w |}).
Proof. by destruct end_. Qed.

Lemma new_attributes dflt ticker start end_ interval w :
  let d := self_dict (Fetcher.new dflt ticker start end_ interval w).2 in
  d !! "ticker" = Some (PyStr (upper ticker))
  ∧ d !! "start" = Some (PyInt (py_int start))
  ∧ d !! "end" = Some (PyInt (py_int (default (Fetcher.default_end dflt) end_)))
  ∧ d !! "interval"
    = Some (PyStr (default (Fetcher.default_interval dflt) interval)).
Proof. rewrite new_run. cbn [self_dict snd]. by simplify_map_eq. Qed.

(** C9. Building a client with any interval string, accepted or not,
    succeeds, stores the string and makes no request; when the string is
    not one of [DATE_INTERVALS] it is the later call of [_get] that raises
    the [ValueError]. *)
Theorem invalid_interval_deferred K dflt ticker start end_ interval w :
  let r := Fetcher.new dflt ticker start end_ (Some interval) w in
  r.1 = Return ()
  ∧ self_dict r.2 !! "interval" = Some (PyStr interval)
  ∧ sent r.2 = sent w
  ∧ (interval ∉ DATE_INTERVALS K →
     ∀ event flag,
       Fetcher._get K event flag r.2
       = (Raise (ValueError (Fetcher.invalid_interval_msg K)), r.2)).
Proof.
  pose proof (new_attributes dflt ticker start end_ (Some interval) w)
    as (_ & _ & _ & Hi).
  cbn zeta in *. cbn [default] in Hi.
  split_and!; [by rewrite new_run | done | by rewrite new_run |].
  intros Hbad event flag.
  apply (get_invalid_interval _ _ _ _ _ Hi), py_in_false. by intros i [= <-].
Qed.

Lemma invalid_interval_deferred_witness :
  let K := example_constants in
  let r := Fetcher.new {| Fetcher.default_end := NFloat 0;
                          Fetcher.default_interval := "1d" |}
             "aapl" (NInt 1609459200) (Some (NInt 1609545600)) (Some "5m")
             (mock_world 0 one_row_response) in
  ("5m" ∉ DATE_INTERVALS K)
  ∧ r.1 = Return ()
  ∧ self_dict r.2 !! "interval" = Some (PyStr "5m")
  ∧ sent r.2 = sent (mock_world 0 one_row_response)
  ∧ ∀ event flag,
      Fetcher._get K event flag r.2
      = (Raise (ValueError (Fetcher.invalid_interval_msg K)), r.2).
Proof.
  assert (Hbad : "5m" ∉ DATE_INTERVALS example_constants)
    by (by apply (bool_decide_unpack _)).
  split; [exact Hbad|].
  destruct (invalid_interval_deferred example_constants
              {| Fetcher.default_end := NFloat 0; Fetcher.default_interval := "1d" |}
              "aapl" (NInt 1609459200) (Some (NInt 1609545600)) "5m"
              (mock_world 0 one_row_response)) as (A & B & C & D).
  split; [exact A|]. split; [exact B|]. split; [exact C|]. exact (D Hbad).
Defined.

(** ** Construction *)


Example truncation_not_rounding :
  py_int (NFloat (17000000007 # 10)) = 1700000000
  ∧ py_int (NFloat (-17000000007 # 10)) = -1700000000.
Proof. split; reflexivity. Qed.





(** [create_url] on an instance that has the four attributes. *)
Lemma create_url_run K p0 p1 p2 p3 p4 p5 w tk st en iv event :
  five_slot_template (API_URL K) p0 p1 p2 p3 p4 p5 →
  self_dict w !! "ticker" = Some tk → self_dict w !! "start" = Some st →
  self_dict w !! "end" = Some en → self_dict w !! "interval" = Some iv →
  Fetcher.create_url K event w
  = (Return (p0 +:+ py_str tk +:+ p1 +:+ py_str st +:+ p2 +:+ py_str en
             +:+ p3 +:+ py_str iv +:+ p4 +:+ event +:+ p5), w).
Proof.
  intros Ht Htk Hst Hen Hiv. unfold Fetcher.create_url, mbind, M_bind.
  rewrite (getattr_some _ _ _ Htk), (getattr_some _ _ _ Hst),
    (getattr_some _ _ _ Hen), (getattr_some _ _ _ Hiv).
  unfold lift. by rewrite (py_format_five_slots _ _ _ _ _ _ _ _ _ _ _ _ Ht).
Qed.


Lemma example_template :
  five_slot_template (API_URL example_constants)
    "https://finance.example/chart/" "?period1=" "&period2=" "&interval="
    "&events=" "".
Proof.
  split; [reflexivity|].
  repeat constructor; by apply (bool_decide_unpack _).
Qed.

(** With an accepted interval [_get] makes exactly one request, for the URL
    of [create_url] and with the fixed user agent. *)
Lemma get_valid_run K p0 p1 p2 p3 p4 p5 w tk st en i event flag :
  five_slot_template (API_URL K) p0 p1 p2 p3 p4 p5 →
  self_dict w !! "ticker" = Some tk → self_dict w !! "start" = Some st →
  self_dict w !! "end" = Some en → self_dict w !! "interval" = Some (PyStr i) →
  i ∈ DATE_INTERVALS K →
  sent (Fetcher._get K event flag w).2
  = (sent w ++
     [{| req_url := p0 +:+ py_str tk +:+ p1 +:+ py_str st +:+ p2 +:+ py_str en
                    +:+ p3 +:+ i +:+ p4 +:+ event +:+ p5;
         req_headers := [("User-agent", USER_AGENT)] |}])%list.
Proof.
  intros Ht Htk Hst Hen Hiv Hi. unfold Fetcher._get, mbind, M_bind.
  rewrite (getattr_some _ _ _ Hiv).
  replace (py_in (PyStr i) (DATE_INTERVALS K)) with true
    by (symmetry; apply py_in_true; eauto).
  cbn [negb].
  rewrite (create_url_run K _ _ _ _ _ _ w _ _ _ _ event Ht Htk Hst Hen Hiv).
  unfold requests_get. destruct (remote w _ _) as [detail|resp]; [reflexivity|].
  unfold lift. by destruct (conv_df resp), flag.
Qed.

(** C4 (what the code does). The default of [end] is the value of
    [time.time()] when the [def] statement ran: a client built without [end]
    stores the integer part of the clock at definition time, whatever the
    clock reads when the client is built. *)
Theorem default_end_frozen K w0 w1 ticker start interval :
  let dflt0 := {| Fetcher.default_end := NFloat (clock w0);
                  Fetcher.default_interval := ONE_DAY_INTERVAL K |} in
  Fetcher.def___init__ K w0 = (Return dflt0, w0)
  ∧ self_dict (Fetcher.new dflt0 ticker start None interval w1).2 !! "end"
    = Some (PyInt (py_int (NFloat (clock w0)))).
Proof.
  split; [reflexivity|].
  by destruct (new_attributes
                 {| Fetcher.default_end := NFloat (clock w0);
                    Fetcher.default_interval := ONE_DAY_INTERVAL K |}
                 ticker start None interval w1) as (_ & _ & -> & _).
Qed.

(** The class is defined when the clock reads 1000 and two clients are
    built without [end] when it reads 2000 and 3000: both store 1000. *)
Example default_end_stale :
  self_dict (late_client 2000 (mock_world 1000 one_row_response)).2 !! "end"
  = Some (PyInt 1000)
  ∧ self_dict (late_client 3000 (mock_world 1000 one_row_response)).2 !! "end"
    = Some (PyInt 1000).
Proof. split; vm_compute; reflexivity. Qed.





Example fractional_start_url :
  (Fetcher.create_url example_constants "history"
     (Fetcher.new {| Fetcher.default_end := NFloat 0;
                     Fetcher.default_interval := "1d" |}
        "aapl" (NFloat (17000000007 # 10)) (Some (NFloat (17000864009 # 10)))
        None (mock_world 0 one_row_response)).2).1
  = Return "https://finance.example/chart/AAPL?period1=1700000000&period2=1700086400&interval=1d&events=history".
Proof. vm_compute. reflexivity. Qed.

(** ** The URL builder *)



(** ** The shape of the date string *)

Lemma yd_valid_checked l l2 : holds_on 9 0 (yd_valid_ok l l2) = true.
Proof. destruct l, l2; vm_compute; reflexivity. Qed.

Lemma year_text_checked : holds_on 14 0 year_text_ok = true.
Proof. vm_compute. reflexivity. Qed.

Lemma two_text_checked : holds_on 5 0 two_text_ok = true.
Proof. vm_compute. reflexivity. Qed.

Lemma date_of_yd_valid y doy :
  0 <= doy <= 364 + leap_day (is_leap (y + 1)) →
  let dt := date_of_yd y doy in
  1 <= dt.1.2 <= 12 ∧ 1 <= dt.2 <= days_in_month dt.1.1 dt.1.2
  ∧ (306 <= doy ↔ dt.1.2 <= 2).
Proof.
  intros H dt.
  assert (Hb : 0 <= doy < 0 + 2 ^ Z.of_nat 9)
    by (unfold leap_day in H; destruct (is_leap _); simpl; lia).
  pose proof (holds_on_spec 9 0 _ (yd_valid_checked (is_leap (y + 1)) (is_leap y))
                doy Hb) as Hok.
  unfold yd_valid_ok in Hok.
  destruct (Z.leb_spec doy (364 + leap_day (is_leap (y + 1)))); [|lia].
  pose proof (flag_of_yd y doy) as Hflag. cbv zeta in Hflag.
  pose proof (date_of_yd_shift y doy) as E. subst dt.
  destruct (date_of_yd 0 doy) as [[y0 m] d].
  rewrite E in *. cbn [shift_years fst snd] in *.
  rewrite <- Hflag in Hok.
  change (days_in_month (y0 + y) m) with (days_in_month_l (is_leap (y0 + y)) m).
  repeat (apply andb_true_iff in Hok as [Hok ?]).
  destruct (Z.leb_spec 306 doy), (Z.leb_spec m 2); try discriminate; lia.
Qed.

Lemma civil_from_days_valid n :
  let dt := civil_from_days n in
  1 <= dt.1.2 <= 12 ∧ 1 <= dt.2 <= days_in_month dt.1.1 dt.1.2.
Proof.
  destruct (civil_from_days_exists n) as (y & Hy & ->).
  pose proof (year_length y).
  destruct (date_of_yd_valid y (n + 719468 - year_start y)) as (? & ? & _); [lia|].
  done.
Qed.

(** Between 0001-01-01 and 9999-12-31 the year has one to four digits. *)
Lemma civil_from_days_year_range n :
  -719162 <= n <= 2932896 → 1 <= (civil_from_days n).1.1 <= 9999.
Proof.
  intros Hn. destruct (civil_from_days_exists n) as (y & Hy & ->).
  pose proof (year_length y) as Hlen.
  destruct (date_of_yd_valid y (n + 719468 - year_start y)) as (_ & _ & Hm); [lia|].
  assert (Hy0 : 0 <= y <= 9999).
  { split.
    - destruct (Z_lt_ge_dec y 0) as [Hlt|]; [|lia].
      pose proof (year_start_mono y 0 Hlt). change (year_start 0) with 0 in *. lia.
    - destruct (Z_lt_ge_dec 9999 y) as [Hlt|]; [|lia].
      pose proof (year_start_mono 9999 y Hlt).
      change (year_start (9999 + 1)) with 3652425 in *. lia. }
  unfold date_of_yd in *. cbn [fst snd] in *.
  destruct (Z.leb_spec
    (if (5 * (n + 719468 - year_start y) + 2) `div` 153 <? 10
     then (5 * (n + 719468 - year_start y) + 2) `div` 153 + 3
     else (5 * (n + 719468 - year_start y) + 2) `div` 153 - 9) 2) as [Hle|Hgt].
  - assert (y ≠ 9999 ∨ y = 9999) as [? | ->] by lia; [lia|].
    change (year_start 9999) with 3652059 in *. lia.
  - assert (y ≠ 0 ∨ y = 0) as [? | ->] by lia; [lia|].
    change (year_start 0) with 0 in *. lia.
Qed.

Lemma digits_n_chars n s :
  digits_n n s = true → length (chars s) = n ∧ Forall (λ c, is_digit c = true) (chars s).
Proof.
  unfold digits_n. rewrite andb_true_iff, Nat.eqb_eq, forallb_forall, Forall_forall.
  intros [? H]. split; [done|]. intros c Hc. by apply H, list_elem_of_In.
Qed.

Lemma is_Ymd_append sy sm sd :
  digits_n 4 sy = true → digits_n 2 sm = true → digits_n 2 sd = true →
  is_Ymd (sy +:+ "-" +:+ sm +:+ "-" +:+ sd) = true.
Proof.
  intros Hy Hm Hd.
  apply digits_n_chars in Hy as [Ly Dy], Hm as [Lm Dm], Hd as [Ld Dd].
  unfold is_Ymd. rewrite !chars_app.
  destruct (chars sy) as [|y1 [|y2 [|y3 [|y4 [|]]]]]; try discriminate.
  destruct (chars sm) as [|m1 [|m2 [|]]]; try discriminate.
  destruct (chars sd) as [|d1 [|d2 [|]]]; try discriminate.
  cbn.
  repeat match goal with
         | H : Forall _ (_ :: _) |- _ => apply Forall_cons in H as [-> H]
         end.
  reflexivity.
Qed.

(** From 0001-01-01 to 9999-12-31 the date string reads [dddd-dd-dd]. *)
Lemma strftime_Ymd_shape t :
  -62135596800 <= t < 253402300800 → is_Ymd (strftime_Ymd t) = true.
Proof.
  intros Ht. unfold strftime_Ymd.
  assert (Hn : -719162 <= t / 86400 <= 2932896)
    by (Z.div_mod_to_equations; lia).
  pose proof (civil_from_days_year_range _ Hn) as Hy.
  pose proof (civil_from_days_valid (t / 86400)) as (Hm & Hd).
  destruct (civil_from_days (t / 86400)) as [[y m] d]. cbn in *.
  assert (days_in_month y m <= 31)
    by (unfold days_in_month; repeat destruct (_ =? _); repeat destruct (is_leap _); cbn; lia).
  apply is_Ymd_append.
  - pose proof (holds_on_spec 14 0 _ year_text_checked y) as H1.
    unfold year_text_ok in H1.
    destruct (Z.ltb_spec y 1), (Z.ltb_spec 9999 y); try lia.
    apply H1. simpl. lia.
  - pose proof (holds_on_spec 5 0 _ two_text_checked m) as H1.
    unfold two_text_ok in H1.
    destruct (Z.ltb_spec m 1), (Z.ltb_spec 31 m); try lia.
    apply H1. simpl. lia.
  - pose proof (holds_on_spec 5 0 _ two_text_checked d) as H1.
    unfold two_text_ok in H1.
    destruct (Z.ltb_spec d 1), (Z.ltb_spec 31 d); try lia.
    apply H1. simpl. lia.
Qed.

(** ** The date of a row *)

Lemma strftime_Ymd_utc t : strftime_Ymd t = fmt_date (utc_calendar_date t).
Proof.
  unfold strftime_Ymd, utc_calendar_date. by rewrite date_after_days_civil.
Qed.

Lemma tz_blind_bind {A B : Type} (m : M A) (f : A → M B) :
  tz_blind m → (∀ a, tz_blind (f a)) → tz_blind (m ≫= f).
Proof.
  intros Hm Hf tz w. unfold mbind, M_bind. rewrite Hm.
  destruct (m w) as [[a|e] w']; cbn; [apply Hf | reflexivity].
Qed.

Lemma tz_blind_getattr name : tz_blind (getattr name).
Proof. intros tz w. unfold getattr. cbn. by destruct (self_dict w !! name). Qed.

Lemma tz_blind_lift {A : Type} (o : outcome A) : tz_blind (lift o).
Proof. by intros tz w. Qed.

Lemma tz_blind_requests_get url headers : tz_blind (requests_get url headers).
Proof. intros tz w. unfold requests_get. cbn. by destruct (remote w _ _). Qed.

Lemma tz_blind_get K event flag : tz_blind (Fetcher._get K event flag).
Proof.
  unfold Fetcher._get, Fetcher.create_url.
  apply tz_blind_bind; [apply tz_blind_getattr | intros v].
  destruct (negb _); [by intros tz w|].
  apply tz_blind_bind.
  { repeat (apply tz_blind_bind; [apply tz_blind_getattr | intros ?]).
    apply tz_blind_lift. }
  intros url. apply tz_blind_bind; [apply tz_blind_requests_get | intros data].
  apply tz_blind_bind; [apply tz_blind_lift | intros df].
  by destruct flag; intros tz w.
Qed.

(** ** Serialization *)

Lemma mapM_outcome_length {A B : Type} (f : A → outcome B) (l : list A) k :
  mapM f l = Return k → length k = length l.
Proof.
  revert k. induction l as [|x l IH]; intros k H.
  - by injection H as <-.
  - cbn in H. apply bind_Return_inv in H as (y & _ & H).
    apply bind_Return_inv in H as (k' & Hk' & H). injection H as <-.
    cbn. f_equal. by apply IH.
Qed.

(** The frame [pd.DataFrame] builds from six entries. *)
Lemma pd_DataFrame_six k1 k2 k3 k4 k5 k6 v1 v2 v3 v4 v5 v6 df :
  pd_DataFrame [(k1, v1); (k2, v2); (k3, v3); (k4, v4); (k5, v5); (k6, v6)]
  = Return df →
  ∃ c1 c2 c3 c4 c5 c6,
    df = {| index_len := length c1;
            columns := [(k1, c1); (k2, c2); (k3, c3); (k4, c4); (k5, c5); (k6, c6)] |}
    ∧ length c2 = length c1 ∧ length c3 = length c1 ∧ length c4 = length c1
    ∧ length c5 = length c1 ∧ length c6 = length c1.
Proof.
  unfold pd_DataFrame. cbn.
  destruct (as_column v1) as [c1|]; [cbn|discriminate].
  destruct (as_column v2) as [c2|]; [cbn|discriminate].
  destruct (as_column v3) as [c3|]; [cbn|discriminate].
  destruct (as_column v4) as [c4|]; [cbn|discriminate].
  destruct (as_column v5) as [c5|]; [cbn|discriminate].
  destruct (as_column v6) as [c6|]; [cbn|discriminate].
  rewrite Nat.eqb_refl. cbn.
  destruct (Nat.eqb_spec (length c2) (length c1)); [cbn|discriminate].
  destruct (Nat.eqb_spec (length c3) (length c1)); [cbn|discriminate].
  destruct (Nat.eqb_spec (length c4) (length c1)); [cbn|discriminate].
  destruct (Nat.eqb_spec (length c5) (length c1)); [cbn|discriminate].
  destruct (Nat.eqb_spec (length c6) (length c1)); [cbn|discriminate].
  intros [= <-]. by exists c1, c2, c3, c4, c5, c6.
Qed.

(** Whatever frame [conv_df] returns has the six columns, in order, each as
    long as the index. *)
Lemma assemble_shape tsj o h l c v df :
  assemble tsj o h l c v = Return df →
  well_formed df
  ∧ column_names df = ["Date"; "Open"; "High"; "Low"; "Close"; "Volume"].
Proof.
  unfold assemble. intros H.
  apply bind_Return_inv in H as (df0 & H0 & H).
  apply pd_DataFrame_six in H0
    as (c1 & c2 & c3 & c4 & c5 & c6 & -> & L2 & L3 & L4 & L5 & L6).
  cbn in H.
  apply bind_Return_inv in H as (time & Ht & H).
  apply mapM_outcome_length in Ht.
  unfold df_setitem in H. cbn in H. rewrite Ht, Nat.eqb_refl in H. cbn in H.
  apply bind_Return_inv in H as (date & Hd & H).
  apply mapM_outcome_length in Hd.
  rewrite Hd, Ht, Nat.eqb_refl in H. cbn in H.
  injection H as <-. split; [|reflexivity].
  unfold well_formed. cbn. repeat constructor; cbn; congruence.
Qed.

Lemma conv_df_shape resp df :
  conv_df resp = Return df →
  well_formed df
  ∧ column_names df = ["Date"; "Open"; "High"; "Low"; "Close"; "Volume"].
Proof.
  unfold conv_df. intros H.
  do 16 (apply bind_Return_inv in H as (? & _ & H); cbv beta in H).
  by apply assemble_shape in H.
Qed.

Lemma imap_labels {A B : Type} (g : A → B) (l : list A) (k : nat) :
  (imap (λ i x, (str_of_nat (k + i), g x)) l).*1 = str_of_nat <$> seq k (length l).
Proof.
  revert k. induction l as [|x l IH]; intros k; [reflexivity|].
  cbn. rewrite Nat.add_0_r. f_equal.
  rewrite <- IH. f_equal. apply imap_ext. intros i y _. cbn.
  by rewrite Nat.add_succ_r.
Qed.

Lemma imap_labels_0 {A B : Type} (g : A → B) (l : list A) :
  (imap (λ i x, (str_of_nat i, g x)) l).*1 = str_of_nat <$> seq 0 (length l).
Proof. exact (imap_labels g l 0). Qed.

Lemma mapM_read_column (cols : list (string * list cell)) :
  mapM read_column
    ((λ kc, (kc.1, JObj (imap (λ i c, (str_of_nat i, encode_cell c)) kc.2)))
       <$> cols)
  = Return ((λ kc, (kc.1, imap (λ i c, (str_of_nat i, encode_cell c)) kc.2))
              <$> cols).
Proof.
  induction cols as [|[k c] cols IH]; [reflexivity|].
  cbn. cbn in IH. by rewrite IH.
Qed.

Lemma labels_NoDup n : NoDup (str_of_nat <$> seq 0 n).
Proof.
  apply NoDup_fmap_2; [|apply NoDup_seq].
  intros i j. apply str_of_nat_inj.
Qed.

(** The row labels read back from the document of a frame with at least one
    column are as many as the rows. *)
Lemma labels_of_columns (cols : list (string * list cell)) n :
  cols ≠ [] →
  Forall (λ kc, length kc.2 = n) cols →
  length (remove_dups (concat
    ((λ kr : string * list (string * json), kr.2.*1) <$>
       ((λ kc, (kc.1, imap (λ i c, (str_of_nat i, encode_cell c)) kc.2))
          <$> cols))))
  = n.
Proof.
  intros Hne Hwf.
  transitivity (length (str_of_nat <$> seq 0 n));
    [|by rewrite length_fmap, length_seq].
  apply Permutation_length, NoDup_Permutation;
    [apply NoDup_remove_dups | apply labels_NoDup |].
  intros x. rewrite elem_of_remove_dups, <- list_fmap_compose. split.
  - intros Hx. apply list_elem_of_In, in_concat in Hx as (L & HL & Hx).
    apply list_elem_of_In in HL, Hx.
    apply list_elem_of_fmap in HL as ([k c] & -> & Hkc).
    rewrite Forall_forall in Hwf. specialize (Hwf _ Hkc). cbn in *.
    by rewrite (imap_labels_0 encode_cell c), Hwf in Hx.
  - intros Hx. destruct cols as [|[k c] cols]; [done|].
    apply Forall_cons in Hwf as [Hc _]. cbn in Hc.
    apply list_elem_of_In, in_concat.
    exists (str_of_nat <$> seq 0 n). split; [|by apply list_elem_of_In].
    cbn. rewrite (imap_labels_0 encode_cell c), Hc. by left.
Qed.

Lemma read_json_to_json df :
  well_formed df → columns df ≠ [] →
  ∃ df', read_json (to_json df) = Return df'
    ∧ column_names df' = column_names df
    ∧ index_len df' = index_len df.
Proof.
  intros Hwf Hne. unfold read_json, to_json.
  rewrite mapM_read_column. cbn [mbind outcome_bind mret outcome_ret].
  eexists. split; [reflexivity|]. split.
  - unfold column_names. cbn [columns].
    rewrite <- !list_fmap_compose. by apply list_fmap_ext.
  - cbn [index_len]. by apply labels_of_columns.
Qed.

(** The two output modes of [_get] differ in the last step only. *)
Lemma get_modes K event w :
  ∃ (o : outcome DataFrame) w',
    (∀ flag : bool,
       Fetcher._get K event flag w
       = ((λ df, if flag then Table df else Serialized (to_json df)) <$> o, w'))
    ∧ ∀ df, o = Return df → ∃ resp, conv_df resp = Return df.
Proof.
  unfold Fetcher._get, mbind, M_bind.
  destruct (getattr "interval" w) as [[v|e] w1];
    [|exists (Raise e), w1; by split].
  destruct (negb _);
    [eexists (Raise _), w1; split; [reflexivity | done]|].
  destruct (Fetcher.create_url K event w1) as [[url|e] w2];
    [|exists (Raise e), w2; by split].
  destruct (requests_get url _ w2) as [[data|e] w3];
    [|exists (Raise e), w3; by split].
  unfold lift. destruct (conv_df data) as [df|e] eqn:E.
  - exists (Return df), w3. split; [by intros []|]. intros df' [= <-]. eauto.
  - exists (Raise e), w3. split; [by intros []|done].
Qed.

(** C7. When [_get] returns a frame in table mode, it returns in the other
    mode the document of that frame, and reading the document back gives a
    frame with the same column names, Date, Open, High, Low, Close and
    Volume, and as many rows. *)
Theorem to_json_round_trip K event w df w' :
  Fetcher._get K event true w = (Return (Table df), w') →
  ∃ doc df',
    Fetcher._get K event false w = (Return (Serialized doc), w')
    ∧ doc = to_json df
    ∧ read_json doc = Return df'
    ∧ column_names df = ["Date"; "Open"; "High"; "Low"; "Close"; "Volume"]
    ∧ column_names df' = column_names df
    ∧ index_len df' = index_len df.
Proof.
  intros H. destruct (get_modes K event w) as (o & w1 & Hrun & Hconv).
  rewrite Hrun in H. destruct o as [df0|e]; [|discriminate].
  cbn in H. injection H as <- <-.
  destruct (Hconv df0 eq_refl) as (resp & Hresp).
  apply conv_df_shape in Hresp as [Hwf Hnames].
  destruct (read_json_to_json df0 Hwf) as (df' & Hread & Hn & Hi).
  { intros E. unfold column_names in Hnames. by rewrite E in Hnames. }
  exists (to_json df0), df'. by rewrite Hrun.
Qed.

Lemma to_json_round_trip_witness :
  let K := example_constants in
  let w := example_client "1d" in
  (Fetcher._get K "history" true w).1 = Return (Table example_table)
  ∧ ∃ doc df',
      Fetcher._get K "history" false w
      = (Return (Serialized doc), (Fetcher._get K "history" true w).2)
      ∧ doc = to_json example_table
      ∧ read_json doc = Return df'
      ∧ column_names example_table
        = ["Date"; "Open"; "High"; "Low"; "Close"; "Volume"]
      ∧ column_names df' = column_names example_table
      ∧ index_len df' = index_len example_table.
Proof.
  split; [vm_compute; reflexivity|].
  apply (to_json_round_trip example_constants "history" (example_client "1d")).
  vm_compute. reflexivity.
Defined.

Example read_back_example :
  read_json (to_json example_table)
  = Return {| index_len := 1;
              columns := [("Date", [Val (JStr "2021-01-01")]);
                          ("Open", [Val (JFloat 130)]); ("High", [Val (JFloat 133)]);
                          ("Low", [Val (JFloat 129)]); ("Close", [Val (JFloat 132)]);
                          ("Volume", [Val (JInt 1000000)])] |}.
Proof. vm_compute. reflexivity. Qed.

(** * Further properties of the code *)

(** ** [conv_df] on responses that are not of the documented shape *)

Lemma conv_df_result0 resp : conv_df resp = result0 resp ≫= normalize_result.
Proof.
  unfold conv_df, result0, normalize_result, quote0.
  destruct (response_json resp) as [j|e]; [cbn|reflexivity].
  destruct (getitem_key "chart" j) as [chart|e]; [cbn|reflexivity].
  destruct (getitem_key "result" chart) as [result|e]; [cbn|reflexivity].
  destruct (getitem_idx 0 result) as [r0|e]; [cbn|reflexivity].
  destruct (getitem_key "timestamp" r0) as [ts|e]; [cbn|reflexivity].
  destruct (getitem_key "indicators" r0) as [ind|e]; [cbn|reflexivity].
  destruct (getitem_key "quote" ind) as [quote|e]; [cbn|reflexivity].
  destruct (getitem_idx 0 quote) as [q|e]; reflexivity.
Qed.

(** X1. Only the five indicator keys have a default. A body that is not
    JSON, a document without [chart], a chart without [result], a [result]
    that is [null] or the empty list, and a first result without
    [timestamp] or without [indicators] each make [conv_df] raise: the
    decoding error, [KeyError] of the missing key, [TypeError] for the
    subscript of [null], [IndexError] for the empty list. *)
Theorem conv_df_malformed_response :
  conv_df (Response None) = Raise (JSONDecodeError "Expecting value")
  ∧ (∀ doc, assoc "chart" doc = None →
       conv_df (Response (Some (JObj doc))) = Raise (KeyError "chart"))
  ∧ (∀ doc chart,
       assoc "chart" doc = Some (JObj chart) →
       (assoc "result" chart = None →
        conv_df (Response (Some (JObj doc))) = Raise (KeyError "result"))
       ∧ (assoc "result" chart = Some JNull →
          conv_df (Response (Some (JObj doc)))
          = Raise (TypeError "object is not subscriptable"))
       ∧ (assoc "result" chart = Some (JArr []) →
          conv_df (Response (Some (JObj doc))) = Raise IndexError))
  ∧ (∀ resp r0,
       result0 resp = Return (JObj r0) →
       (assoc "timestamp" r0 = None →
        conv_df resp = Raise (KeyError "timestamp"))
       ∧ (∀ ts, assoc "timestamp" r0 = Some ts → assoc "indicators" r0 = None →
          conv_df resp = Raise (KeyError "indicators"))).
Proof.
  split; [reflexivity|]. split; [|split].
  - intros doc H. rewrite conv_df_result0. unfold result0. cbn. by rewrite H.
  - intros doc chart Hc. repeat split; intros Hr;
      rewrite conv_df_result0; unfold result0; cbn; rewrite Hc; cbn;
      by rewrite Hr.
  - intros resp r0 H0. split.
    + intros Hts. rewrite conv_df_result0, H0. unfold normalize_result. cbn.
      by rewrite Hts.
    + intros ts Hts Hind. rewrite conv_df_result0, H0.
      unfold normalize_result, quote0. cbn. rewrite Hts. cbn. by rewrite Hind.
Qed.

Lemma conv_df_malformed_response_witness :
  assoc "chart" [("chart", JObj [("result", JNull);
                                 ("error", JObj [("code", JStr "Not Found")])])]
  = Some (JObj [("result", JNull); ("error", JObj [("code", JStr "Not Found")])])
  ∧ assoc "result" [("result", JNull); ("error", JObj [("code", JStr "Not Found")])]
    = Some JNull
  ∧ conv_df not_found_response = Raise (TypeError "object is not subscriptable").
Proof.
  split; [reflexivity|]. split; [reflexivity|].
  destruct conv_df_malformed_response as (_ & _ & H & _).
  exact (proj1 (proj2 (H [("chart", JObj [("result", JNull);
                                          ("error", JObj [("code", JStr "Not Found")])])]
                        [("result", JNull); ("error", JObj [("code", JStr "Not Found")])]
                        eq_refl)) eq_refl).
Defined.

(** X2. [conv_df] neither pads nor cuts a column: when the five indicator
    arrays are present and one of them, or the timestamp array, is longer
    or shorter than the others, the frame constructor raises [ValueError]
    and no table is returned. *)
Theorem conv_df_ragged_arrays resp r0 q (tsj o h l c v : list json) :
  result0 resp = Return r0 →
  getitem_key "timestamp" r0 = Return (JArr tsj) →
  quote0 r0 = Return (JObj q) →
  assoc "open" q = Some (JArr o) → assoc "high" q = Some (JArr h) →
  assoc "low" q = Some (JArr l) → assoc "close" q = Some (JArr c) →
  assoc "volume" q = Some (JArr v) →
  ¬ (length o = length tsj ∧ length h = length tsj ∧ length l = length tsj
     ∧ length c = length tsj ∧ length v = length tsj) →
  conv_df resp = Raise (ValueError "All arrays must be of the same length").
Proof.
  intros H0 Hts Hq Ho Hh Hl Hc Hv Hne.
  rewrite (conv_df_extract _ _ _ _ H0 Hts Hq), Ho, Hh, Hl, Hc, Hv. cbn [default].
  apply assemble_ragged.
  destruct (decide (length o = length tsj)); [|tauto].
  destruct (decide (length h = length tsj)); [|tauto].
  destruct (decide (length l = length tsj)); [|tauto].
  destruct (decide (length c = length tsj)); [|tauto].
  destruct (decide (length v = length tsj)); tauto.
Qed.

Lemma conv_df_ragged_arrays_witness :
  ¬ (length [JFloat 130; JFloat 131] = 2%nat ∧ length [JFloat 133; JFloat 134] = 2%nat
     ∧ length [JFloat 129; JFloat 130] = 2%nat
     ∧ length [JFloat 132; JFloat 133] = 2%nat ∧ length [JInt 1000000] = 2%nat)
  ∧ conv_df short_volume_response
    = Raise (ValueError "All arrays must be of the same length").
Proof.
  assert (Hne : ¬ (length [JFloat 130; JFloat 131] = 2%nat
                   ∧ length [JFloat 133; JFloat 134] = 2%nat
                   ∧ length [JFloat 129; JFloat 130] = 2%nat
                   ∧ length [JFloat 132; JFloat 133] = 2%nat
                   ∧ length [JInt 1000000] = 2%nat))
    by (cbn; lia).
  split; [exact Hne|].
  exact (conv_df_ragged_arrays short_volume_response
           (JObj [("timestamp", JArr [JInt 1609459200; JInt 1609545600]);
                  ("indicators", JObj [("quote", JArr [JObj
                     [("open", JArr [JFloat 130; JFloat 131]);
                      ("high", JArr [JFloat 133; JFloat 134]);
                      ("low", JArr [JFloat 129; JFloat 130]);
                      ("close", JArr [JFloat 132; JFloat 133]);
                      ("volume", JArr [JInt 1000000])]])])])
           _ [JInt 1609459200; JInt 1609545600] _ _ _ _ _
           eq_refl eq_refl eq_refl eq_refl eq_refl eq_refl eq_refl eq_refl Hne).
Defined.

(** X3. A response without observations gives the table without rows: when
    the timestamp array is empty and each indicator key is absent or bound
    to the empty array, [conv_df] returns the frame of no rows with the six
    columns in their order. *)
Theorem conv_df_no_timestamps resp r0 q :
  result0 resp = Return r0 →
  getitem_key "timestamp" r0 = Return (JArr []) →
  quote0 r0 = Return (JObj q) →
  (∀ k, k ∈ INDICATOR_KEYS → assoc k q = None ∨ assoc k q = Some (JArr [])) →
  conv_df resp = Return empty_table.
Proof.
  intros H0 Hts Hq Hk.
  rewrite (conv_df_extract _ _ _ _ H0 Hts Hq).
  assert (Hd : ∀ k, k ∈ INDICATOR_KEYS → default (JArr []) (assoc k q) = JArr []).
  { intros k Hin. by destruct (Hk k Hin) as [-> | ->]. }
  rewrite !Hd by (unfold INDICATOR_KEYS; repeat constructor).
  reflexivity.
Qed.

Lemma conv_df_no_timestamps_witness :
  conv_df (chart_response [] [("open", JArr []); ("close", JArr [])])
  = Return empty_table.
Proof.
  apply (conv_df_no_timestamps
           (chart_response [] [("open", JArr []); ("close", JArr [])])
           (JObj [("timestamp", JArr []);
                  ("indicators", JObj [("quote", JArr [JObj
                     [("open", JArr []); ("close", JArr [])]])])])
           [("open", JArr []); ("close", JArr [])]); try reflexivity.
  intros k Hin. unfold INDICATOR_KEYS in Hin.
  rewrite !elem_of_cons, elem_of_nil in Hin.
  destruct Hin as [->|[->|[->|[->|[->|[]]]]]]; cbn; auto.
Defined.

(** X4. [conv_df] reads the timestamp array of the first result and the
    five indicator members of its first quote, and nothing else: two
    responses that agree on these give the same outcome, whatever other
    members, further results or quotes they hold and in whatever order the
    quote lists its members. *)
Theorem conv_df_reads_only resp resp' r0 r0' q q' :
  result0 resp = Return r0 → result0 resp' = Return r0' →
  getitem_key "timestamp" r0 = getitem_key "timestamp" r0' →
  quote0 r0 = Return (JObj q) → quote0 r0' = Return (JObj q') →
  (∀ k, k ∈ INDICATOR_KEYS → assoc k q = assoc k q') →
  conv_df resp = conv_df resp'.
Proof.
  intros H0 H0' Hts Hq Hq' Hk.
  rewrite !conv_df_result0, H0, H0'. cbn. unfold normalize_result.
  rewrite Hts, Hq, Hq'. destruct (getitem_key "timestamp" r0'); [cbn|reflexivity].
  by rewrite !Hk by (unfold INDICATOR_KEYS; repeat constructor).
Qed.

Lemma conv_df_reads_only_witness :
  conv_df noisy_response = conv_df one_row_response
  ∧ conv_df noisy_response = Return example_table.
Proof.
  split; [|reflexivity].
  eapply (conv_df_reads_only noisy_response one_row_response);
    try reflexivity.
  intros k Hin. unfold INDICATOR_KEYS in Hin.
  rewrite !elem_of_cons, elem_of_nil in Hin.
  by destruct Hin as [->|[->|[->|[->|[->|[]]]]]].
Defined.

Lemma mapM_to_datetime_gaps (ots : list (option Z)) :
  (∀ t, Some t ∈ ots → in_ns_range t) →
  mapM to_datetime_s (Val <$> (timestamp_json <$> ots))
  = Return (from_option Timestamp NaT <$> ots).
Proof.
  induction ots as [|[t|] ots IH]; intros Hr; [reflexivity| |].
  - cbn [fmap list_fmap mapM timestamp_json from_option].
    cbn [fmap list_fmap] in IH.
    rewrite (to_datetime_s_in_range t) by (apply Hr; left).
    rewrite IH by (intros t' Ht'; apply Hr; by right). reflexivity.
  - cbn [fmap list_fmap mapM timestamp_json from_option].
    cbn [fmap list_fmap] in IH.
    rewrite IH by (intros t' Ht'; apply Hr; by right). reflexivity.
Qed.

Lemma mapM_to_datetime_out_of_bounds (ots : list (option Z)) t :
  Some t ∈ ots → ¬ in_ns_range t →
  mapM to_datetime_s (Val <$> (timestamp_json <$> ots)) = Raise OUT_OF_BOUNDS.
Proof.
  intros Hin Ht. induction ots as [|[t'|] ots IH].
  - by apply elem_of_nil in Hin.
  - cbn [fmap list_fmap mapM timestamp_json].
    cbn [fmap list_fmap] in IH.
    destruct (decide (- 9223372036 <= t' <= 9223372036)) as [Hr|Hr].
    + rewrite (to_datetime_s_in_range t' Hr).
      apply elem_of_cons in Hin as [[= ->]|Hin]; [done|].
      by rewrite (IH Hin).
    + by rewrite (to_datetime_s_out_of_range t' Hr).
  - apply elem_of_cons in Hin as [?|Hin]; [done|].
    cbn [fmap list_fmap mapM timestamp_json].
    cbn [fmap list_fmap] in IH. by rewrite (IH Hin).
Qed.

Lemma mapM_strftime_gaps (ots : list (option Z)) :
  None ∈ ots →
  mapM strftime_cell (from_option Timestamp NaT <$> ots)
  = Raise (ValueError "NaTType does not support strftime").
Proof.
  induction ots as [|[t|] ots IH]; intros Hin.
  - by apply elem_of_nil in Hin.
  - apply elem_of_cons in Hin as [?|Hin]; [done|]. cbn. cbn in IH.
    by rewrite (IH Hin).
  - reflexivity.
Qed.

(** X5. A [null] among the timestamps fails the whole call, and so does a
    timestamp outside the 64-bit nanosecond range.  With integer or [null]
    timestamps and five arrays of the right length: an integer out of the
    range makes [conv_df] raise [OutOfBoundsDatetime], from the conversion
    of line 35 and whatever else the column holds; with every integer in
    the range, a [null] makes it raise the [ValueError] of formatting the
    missing instant.  No partial table is returned either way. *)
Theorem conv_df_null_timestamp resp r0 q (ots : list (option Z))
    (o h l c v : list json) :
  result0 resp = Return r0 →
  getitem_key "timestamp" r0 = Return (JArr (timestamp_json <$> ots)) →
  quote0 r0 = Return (JObj q) →
  assoc "open" q = Some (JArr o) → assoc "high" q = Some (JArr h) →
  assoc "low" q = Some (JArr l) → assoc "close" q = Some (JArr c) →
  assoc "volume" q = Some (JArr v) →
  length o = length ots → length h = length ots → length l = length ots →
  length c = length ots → length v = length ots →
  ((∃ t, Some t ∈ ots ∧ ¬ in_ns_range t) →
   ∃ msg, conv_df resp = Raise (OutOfBoundsDatetime msg))
  ∧ ((∀ t, Some t ∈ ots → in_ns_range t) → None ∈ ots →
     conv_df resp = Raise (ValueError "NaTType does not support strftime")).
Proof.
  intros H0 Hts Hq Ho Hh Hl Hc Hv Lo Lh Ll Lc Lv.
  rewrite (conv_df_extract _ _ _ _ H0 Hts Hq), Ho, Hh, Hl, Hc, Hv. cbn [default].
  unfold assemble, pd_DataFrame. cbn.
  rewrite !length_fmap, Lo, Lh, Ll, Lc, Lv, !Nat.eqb_refl. cbn. split.
  - intros (t & Hin & Ht). eexists.
    rewrite (mapM_to_datetime_out_of_bounds ots t Hin Ht). reflexivity.
  - intros Hr Hin. rewrite (mapM_to_datetime_gaps ots Hr). cbn.
    unfold df_setitem. cbn. rewrite !length_fmap, Nat.eqb_refl. cbn.
    by rewrite mapM_strftime_gaps.
Qed.

Lemma conv_df_null_timestamp_witness :
  conv_df gap_response = Raise (ValueError "NaTType does not support strftime")
  ∧ ∃ msg, conv_df far_gap_response = Raise (OutOfBoundsDatetime msg).
Proof.
  split.
  - refine (proj2 (conv_df_null_timestamp gap_response
           (JObj [("timestamp", JArr [JInt 1609459200; JNull]);
                  ("indicators", JObj [("quote", JArr [JObj
                     [("open", JArr [JFloat 130; JNull]);
                      ("high", JArr [JFloat 133; JNull]);
                      ("low", JArr [JFloat 129; JNull]);
                      ("close", JArr [JFloat 132; JNull]);
                      ("volume", JArr [JInt 1000000; JNull])]])])])
           _ [Some 1609459200; None] _ _ _ _ _
           eq_refl eq_refl eq_refl eq_refl eq_refl eq_refl eq_refl eq_refl
           eq_refl eq_refl eq_refl eq_refl eq_refl) _ _).
    + intros t Hin. rewrite !elem_of_cons, elem_of_nil in Hin.
      destruct Hin as [[= ->]|[?|[]]]; [|done]. unfold in_ns_range. lia.
    + right; left.
  - refine (proj1 (conv_df_null_timestamp far_gap_response
           (JObj [("timestamp", JArr [JInt 10000000000; JNull]);
                  ("indicators", JObj [("quote", JArr [JObj
                     [("open", JArr [JFloat 130; JNull]);
                      ("high", JArr [JFloat 133; JNull]);
                      ("low", JArr [JFloat 129; JNull]);
                      ("close", JArr [JFloat 132; JNull]);
                      ("volume", JArr [JInt 1000000; JNull])]])])])
           _ [Some 10000000000; None] _ _ _ _ _
           eq_refl eq_refl eq_refl eq_refl eq_refl eq_refl eq_refl eq_refl
           eq_refl eq_refl eq_refl eq_refl eq_refl) _).
    exists 10000000000. split; [left|]. unfold in_ns_range. lia.
Defined.

(** ** The fetch operations with an accepted interval *)

Lemma get_run_valid K p0 p1 p2 p3 p4 p5 w tk st en i event flag :
  five_slot_template (API_URL K) p0 p1 p2 p3 p4 p5 →
  self_dict w !! "ticker" = Some tk → self_dict w !! "start" = Some st →
  self_dict w !! "end" = Some en → self_dict w !! "interval" = Some (PyStr i) →
  i ∈ DATE_INTERVALS K →
  let rq := fetch_request (p0 +:+ py_str tk +:+ p1 +:+ py_str st +:+ p2
                           +:+ py_str en +:+ p3 +:+ i +:+ p4 +:+ event +:+ p5) in
  Fetcher._get K event flag w = (answer w (sent w) rq flag, with_request rq w).
Proof.
  intros Ht Htk Hst Hen Hiv Hi rq. unfold Fetcher._get, mbind, M_bind.
  rewrite (getattr_some _ _ _ Hiv).
  replace (py_in (PyStr i) (DATE_INTERVALS K)) with true
    by (symmetry; apply py_in_true; eauto).
  cbn [negb].
  rewrite (create_url_run K _ _ _ _ _ _ w _ _ _ _ event Ht Htk Hst Hen Hiv).
  unfold requests_get, answer, with_request. fold rq. cbn [py_str].
  destruct (remote w (sent w) _) as [detail|resp]; [reflexivity|].
  unfold lift. by destruct (conv_df resp), flag.
Qed.






(** X8. A client built without an interval holds [ONE_DAY_INTERVAL]; when
    that constant is one of [DATE_INTERVALS], no fetch on such a client
    raises the error of the interval check. *)
Theorem default_interval_accepted K w0 w1 ticker start end_ :
  ONE_DAY_INTERVAL K ∈ DATE_INTERVALS K →
  let dflt := {| Fetcher.default_end := NFloat (clock w0);
                 Fetcher.default_interval := ONE_DAY_INTERVAL K |} in
  let w := (Fetcher.new dflt ticker start end_ None w1).2 in
  Fetcher.def___init__ K w0 = (Return dflt, w0)
  ∧ self_dict w !! "interval" = Some (PyStr (ONE_DAY_INTERVAL K))
  ∧ ∀ event flag,
      (Fetcher._get K event flag w).1
      ≠ Raise (ValueError (Fetcher.invalid_interval_msg K)).
Proof.
  intros Hin dflt w. split; [reflexivity|].
  destruct (new_attributes dflt ticker start end_ None w1) as (_ & _ & _ & Hi).
  split; [exact Hi|]. intros event flag E.
  assert (Hv : py_in (PyStr (ONE_DAY_INTERVAL K)) (DATE_INTERVALS K) = true)
    by (apply py_in_true; eauto).
  pose proof (get_valid_interval K event flag w _ Hi Hv) as H.
  fold w in E. rewrite E in H. discriminate H.
Qed.

Lemma default_interval_accepted_witness :
  let K := example_constants in
  let w := (Fetcher.new {| Fetcher.default_end := NFloat (clock (mock_world 1000 one_row_response));
                           Fetcher.default_interval := ONE_DAY_INTERVAL K |}
              "aapl" (NInt 0) None None (mock_world 2000 one_row_response)).2 in
  (ONE_DAY_INTERVAL K ∈ DATE_INTERVALS K)
  ∧ self_dict w !! "interval" = Some (PyStr "1d")
  ∧ ∀ event flag,
      (Fetcher._get K event flag w).1
      ≠ Raise (ValueError (Fetcher.invalid_interval_msg K)).
Proof.
  assert (Hi : ONE_DAY_INTERVAL example_constants ∈ DATE_INTERVALS example_constants)
    by (by apply (bool_decide_unpack _)).
  split; [exact Hi|].
  exact (proj2 (default_interval_accepted example_constants
                  (mock_world 1000 one_row_response)
                  (mock_world 2000 one_row_response) "aapl" (NInt 0) None Hi)).
Defined.

(** ** The reordering of the columns *)

Lemma rotate_last_first_snoc {A : Type} (l : list A) (x : A) :
  rotate_last_first (l ++ [x]) = x :: l.
Proof.
  unfold rotate_last_first. rewrite length_app. cbn [length].
  replace (length l + 1 - 1)%nat with (length l) by lia.
  by rewrite drop_app_length, take_app_length.
Qed.

Lemma assoc_NoDup (cols : list (string * list cell)) k c :
  NoDup cols.*1 → (k, c) ∈ cols → assoc k cols = Some c.
Proof.
  induction cols as [|[k' c'] cols IH]; intros Hnd Hin.
  - by apply elem_of_nil in Hin.
  - cbn in Hnd. apply NoDup_cons in Hnd as [Hk' Hnd]. cbn.
    apply elem_of_cons in Hin as [[= -> ->] | Hin].
    + by rewrite String.eqb_refl.
    + destruct (String.eqb_spec k k') as [->|_]; [|by apply IH].
      exfalso. apply Hk'. apply list_elem_of_fmap. by exists (k', c).
Qed.

Lemma df_getitem_present df k c :
  NoDup (column_names df) → (k, c) ∈ columns df → df_getitem k df = Return c.
Proof. intros Hnd Hin. unfold df_getitem. by rewrite (assoc_NoDup _ _ _ Hnd Hin). Qed.

Lemma select_present df (sub : list (string * list cell)) :
  NoDup (column_names df) →
  Forall (λ kc, kc ∈ columns df) sub →
  mapM (λ k, c ← df_getitem k df; mret (k, c)) sub.*1 = Return sub.
Proof.
  intros Hnd. induction sub as [|[k c] sub IH]; intros Hsub; [reflexivity|].
  apply Forall_cons in Hsub as [Hkc Hsub]. cbn.
  rewrite (df_getitem_present _ _ _ Hnd Hkc). cbn. cbn in IH. by rewrite (IH Hsub).
Qed.

(** X9. The last three lines of [conv_df] move the last column of a frame
    to the front and keep the others in their order, with their cells: this
    holds for every frame whose columns have distinct names, and a frame
    without columns is returned as it is. *)
Theorem reorder_moves_last_first df :
  (columns df = [] →
   df_select (rotate_last_first (column_names df)) df
   = Return {| index_len := index_len df; columns := [] |})
  ∧ (∀ cols k c,
       columns df = (cols ++ [(k, c)])%list →
       NoDup (column_names df) →
       df_select (rotate_last_first (column_names df)) df
       = Return {| index_len := index_len df; columns := (k, c) :: cols |}).
Proof.
  split.
  - intros E. unfold df_select, column_names. by rewrite E.
  - intros cols k c E Hnd. unfold df_select.
    replace (rotate_last_first (column_names df)) with (((k, c) :: cols).*1).
    + rewrite (select_present df _ Hnd); [reflexivity|].
      rewrite E. apply Forall_forall. intros kc Hkc.
      apply elem_of_cons in Hkc as [-> | Hkc]; apply elem_of_app;
        [right; by left | by left].
    + unfold column_names. rewrite E, fmap_app. cbn.
      by rewrite rotate_last_first_snoc.
Qed.

Lemma reorder_moves_last_first_witness :
  let df := {| index_len := 1;
               columns := [("Open", [Val (JFloat 130)]);
                           ("Volume", [Val (JInt 1000000)]);
                           ("Date", [Val (JStr "2021-01-01")])] |} in
  NoDup (column_names df)
  ∧ df_select (rotate_last_first (column_names df)) df
    = Return {| index_len := 1;
                columns := [("Date", [Val (JStr "2021-01-01")]);
                            ("Open", [Val (JFloat 130)]);
                            ("Volume", [Val (JInt 1000000)])] |}.
Proof.
  assert (Hnd : NoDup ["Open"; "Volume"; "Date"])
    by (by apply (bool_decide_unpack _)).
  split; [exact Hnd|].
  exact (proj2 (reorder_moves_last_first
                  {| index_len := 1;
                     columns := [("Open", [Val (JFloat 130)]);
                                 ("Volume", [Val (JInt 1000000)]);
                                 ("Date", [Val (JStr "2021-01-01")])] |})
           [("Open", [Val (JFloat 130)]); ("Volume", [Val (JInt 1000000)])]
           "Date" [Val (JStr "2021-01-01")] eq_refl Hnd).
Defined.

(** ** One date string per day *)

Lemma doy_back_checked : holds_on 9 0 doy_back_ok = true.
Proof. vm_compute. reflexivity. Qed.

Lemma year_back_checked : holds_on 14 0 year_back_ok = true.
Proof. vm_compute. reflexivity. Qed.

Lemma two_back_checked : holds_on 5 0 two_back_ok = true.
Proof. vm_compute. reflexivity. Qed.

Lemma doy_back doy :
  0 <= doy <= 365 →
  let dt := date_of_yd 0 doy in
  (153 * (if 2 <? dt.1.2 then dt.1.2 - 3 else dt.1.2 + 9) + 2) / 5 + dt.2 - 1 = doy.
Proof.
  intros H dt.
  pose proof (holds_on_spec 9 0 _ doy_back_checked doy) as Hok.
  unfold doy_back_ok in Hok. fold dt in Hok.
  destruct (Z.ltb_spec 365 doy); [lia|].
  apply Z.eqb_eq. apply Hok. simpl. lia.
Qed.

Lemma days_from_civil_from_days n : days_from_civil (civil_from_days n) = n.
Proof.
  destruct (civil_from_days_exists n) as (y & Hy & ->).
  pose proof (year_length y) as Hlen.
  set (doy := n + 719468 - year_start y).
  assert (Hdoy : 0 <= doy <= 365)
    by (subst doy; unfold leap_day in Hlen; destruct (is_leap _); lia).
  pose proof (doy_back doy Hdoy) as Hback. cbv zeta in Hback.
  assert (Hy1 : (date_of_yd y doy).1.1
                = if (date_of_yd 0 doy).1.2 <=? 2 then y + 1 else y) by reflexivity.
  rewrite (date_of_yd_shift y doy) in *.
  destruct (date_of_yd 0 doy) as [[y0 m] d]. cbn in *.
  rewrite Hy1.
  destruct (Z.leb_spec m 2), (Z.ltb_spec 2 m); try lia.
  replace (y + 1 - 1) with y by lia. subst doy. lia.
Qed.

Lemma civil_from_days_inj n n' : civil_from_days n = civil_from_days n' → n = n'.
Proof.
  intros E. by rewrite <- (days_from_civil_from_days n), E, days_from_civil_from_days.
Qed.

Lemma append_inj_length s1 s1' t t' :
  length (chars s1) = length (chars s1') →
  s1 +:+ t = s1' +:+ t' → s1 = s1' ∧ t = t'.
Proof.
  revert s1'. induction s1 as [|a s1 IH]; intros [|a' s1'] L E;
    try discriminate L.
  - done.
  - injection E as -> E. injection L as L.
    destruct (IH _ L E) as [-> ->]. done.
Qed.

Lemma fmt_year_inj y y' :
  1 <= y <= 9999 → 1 <= y' <= 9999 → fmt_year y = fmt_year y' → y = y'.
Proof.
  intros Hy Hy' E.
  pose proof (holds_on_spec 14 0 _ year_back_checked y) as H1.
  pose proof (holds_on_spec 14 0 _ year_back_checked y') as H2.
  unfold year_back_ok in H1, H2.
  destruct (Z.ltb_spec y 1), (Z.ltb_spec 9999 y),
    (Z.ltb_spec y' 1), (Z.ltb_spec 9999 y'); try lia.
  cbn [orb] in H1, H2.
  rewrite <- (proj1 (Z.eqb_eq _ _) (H1 ltac:(simpl; lia))).
  rewrite <- (proj1 (Z.eqb_eq _ _) (H2 ltac:(simpl; lia))).
  by rewrite E.
Qed.

Lemma fmt_2_inj x x' :
  1 <= x <= 31 → 1 <= x' <= 31 → fmt_2 x = fmt_2 x' → x = x'.
Proof.
  intros Hx Hx' E.
  pose proof (holds_on_spec 5 0 _ two_back_checked x) as H1.
  pose proof (holds_on_spec 5 0 _ two_back_checked x') as H2.
  unfold two_back_ok in H1, H2.
  destruct (Z.ltb_spec x 1), (Z.ltb_spec 31 x),
    (Z.ltb_spec x' 1), (Z.ltb_spec 31 x'); try lia.
  cbn [orb] in H1, H2.
  rewrite <- (proj1 (Z.eqb_eq _ _) (H1 ltac:(simpl; lia))).
  rewrite <- (proj1 (Z.eqb_eq _ _) (H2 ltac:(simpl; lia))).
  by rewrite E.
Qed.

Lemma fmt_year_length y : 1 <= y <= 9999 → length (chars (fmt_year y)) = 4%nat.
Proof.
  intros Hy. pose proof (holds_on_spec 14 0 _ year_text_checked y) as H1.
  unfold year_text_ok in H1.
  destruct (Z.ltb_spec y 1), (Z.ltb_spec 9999 y); try lia.
  by apply digits_n_chars, H1; simpl; lia.
Qed.

Lemma fmt_2_length x : 1 <= x <= 31 → length (chars (fmt_2 x)) = 2%nat.
Proof.
  intros Hx. pose proof (holds_on_spec 5 0 _ two_text_checked x) as H1.
  unfold two_text_ok in H1.
  destruct (Z.ltb_spec x 1), (Z.ltb_spec 31 x); try lia.
  by apply digits_n_chars, H1; simpl; lia.
Qed.

Lemma fmt_date_inj y m d y' m' d' :
  1 <= y <= 9999 → 1 <= m <= 31 → 1 <= d <= 31 →
  1 <= y' <= 9999 → 1 <= m' <= 31 → 1 <= d' <= 31 →
  fmt_date (y, m, d) = fmt_date (y', m', d') → (y, m, d) = (y', m', d').
Proof.
  intros Hy Hm Hd Hy' Hm' Hd' E. unfold fmt_date in E.
  apply append_inj_length in E as [Ey E];
    [|by rewrite !fmt_year_length].
  change (String "-" (fmt_2 m +:+ "-" +:+ fmt_2 d)
          = String "-" (fmt_2 m' +:+ "-" +:+ fmt_2 d')) in E.
  injection E as E.
  apply append_inj_length in E as [Em E];
    [|by rewrite !fmt_2_length].
  change (String "-" (fmt_2 d) = String "-" (fmt_2 d')) in E.
  injection E as Ed.
  by rewrite (fmt_year_inj _ _ Hy Hy' Ey), (fmt_2_inj _ _ Hm Hm' Em),
    (fmt_2_inj _ _ Hd Hd' Ed).
Qed.

Lemma strftime_Ymd_inj t t' :
  in_years_1_9999 t → in_years_1_9999 t' →
  strftime_Ymd t = strftime_Ymd t' → t / 86400 = t' / 86400.
Proof.
  unfold in_years_1_9999, strftime_Ymd. intros Ht Ht' E.
  assert (Hn : -719162 <= t / 86400 <= 2932896) by (Z.div_mod_to_equations; lia).
  assert (Hn' : -719162 <= t' / 86400 <= 2932896) by (Z.div_mod_to_equations; lia).
  pose proof (civil_from_days_year_range _ Hn) as Hy.
  pose proof (civil_from_days_year_range _ Hn') as Hy'.
  pose proof (civil_from_days_valid (t / 86400)) as (Hm & Hd).
  pose proof (civil_from_days_valid (t' / 86400)) as (Hm' & Hd').
  apply civil_from_days_inj.
  destruct (civil_from_days (t / 86400)) as [[y m] d].
  destruct (civil_from_days (t' / 86400)) as [[y' m'] d']. cbn in *.
  assert (B : ∀ y m, days_in_month y m <= 31)
    by (intros; unfold days_in_month;
        repeat destruct (_ =? _); repeat destruct (is_leap _); cbn; lia).
  pose proof (B y m). pose proof (B y' m').
  apply fmt_date_inj; [lia..|exact E].
Qed.

Lemma in_ns_range_years t : in_ns_range t → in_years_1_9999 t.
Proof. unfold in_ns_range, in_years_1_9999. lia. Qed.

(** X10. The Date column tells the days apart: for timestamps that
    [pd.to_datetime(unit='s')] accepts (those of the 64-bit nanosecond
    range, 1677 to 2262), two timestamps get the same date string exactly
    when they lie in the same UTC day, and so do the Date cells of the rows
    that [conv_df] builds from them. *)
Theorem date_string_per_day :
  (∀ t t', in_ns_range t → in_ns_range t' →
     (strftime_Ymd t = strftime_Ymd t' ↔ t / 86400 = t' / 86400))
  ∧ (∀ (ts : list Z) (o h l c v : list json),
       let q := [("open", JArr o); ("high", JArr h); ("low", JArr l);
                 ("close", JArr c); ("volume", JArr v)] in
       length o = length ts → length h = length ts → length l = length ts →
       length c = length ts → length v = length ts →
       Forall in_ns_range ts →
       ∃ df, conv_df (chart_response (JInt <$> ts) q) = Return df
         ∧ ∀ i j t t', ts !! i = Some t → ts !! j = Some t' →
             (cell_at "Date" i df = cell_at "Date" j df
              ↔ t / 86400 = t' / 86400)).
Proof.
  assert (A : ∀ t t', in_ns_range t → in_ns_range t' →
     (strftime_Ymd t = strftime_Ymd t' ↔ t / 86400 = t' / 86400)).
  { intros t t' Ht Ht'. split; [by apply strftime_Ymd_inj; apply in_ns_range_years|].
    intros E. unfold strftime_Ymd. by rewrite E. }
  split; [exact A|].
  intros ts o h l c v q Lo Lh Ll Lc Lv Hts.
  exists (normalized ts o h l c v). split.
  - rewrite (conv_df_extract (chart_response (JInt <$> ts) q)
               (JObj [("timestamp", JArr (JInt <$> ts));
                      ("indicators", JObj [("quote", JArr [JObj q])])])
               (JArr (JInt <$> ts)) q eq_refl eq_refl eq_refl).
    by apply assemble_full.
  - intros i j t t' Hi Hj.
    assert (Hc : ∀ k, cell_at "Date" k (normalized ts o h l c v)
                      = (λ t, Val (JStr (strftime_Ymd t))) <$> ts !! k).
    { intros k. unfold cell_at. cbn. by rewrite list_lookup_fmap. }
    rewrite !Hc, Hi, Hj.
    rewrite Forall_forall in Hts.
    assert (Ht : in_ns_range t)
      by (apply Hts; eapply list_elem_of_lookup_2; eassumption).
    assert (Ht' : in_ns_range t')
      by (apply Hts; eapply list_elem_of_lookup_2; eassumption).
    split.
    + intros E. apply (A t t' Ht Ht'). by injection E.
    + intros E. apply (A t t' Ht Ht') in E.
      exact (f_equal (λ s, Some (Val (JStr s))) E).
Qed.

Lemma date_string_per_day_witness :
  in_ns_range 1609459200 ∧ in_ns_range 1609545599
  ∧ in_ns_range 1609545600
  ∧ (strftime_Ymd 1609459200 = strftime_Ymd 1609545599
     ↔ 1609459200 / 86400 = 1609545599 / 86400)
  ∧ strftime_Ymd 1609545599 = "2021-01-01"
  ∧ strftime_Ymd 1609545600 = "2021-01-02".
Proof.
  assert (H1 : in_ns_range 1609459200) by (unfold in_ns_range; lia).
  assert (H2 : in_ns_range 1609545599) by (unfold in_ns_range; lia).
  assert (H3 : in_ns_range 1609545600) by (unfold in_ns_range; lia).
  split; [exact H1|]. split; [exact H2|]. split; [exact H3|].
  split; [exact (proj1 date_string_per_day _ _ H1 H2)|].
  split; reflexivity.
Defined.

(** * The table and its Date column *)

(** ** The date string read back *)

Lemma parse_Ymd_append sy sm sd :
  digits_n 4 sy = true → digits_n 2 sm = true → digits_n 2 sd = true →
  parse_Ymd (sy +:+ "-" +:+ sm +:+ "-" +:+ sd)
  = Some (number_of sy, number_of sm, number_of sd).
Proof.
  intros Hy Hm Hd.
  apply digits_n_chars in Hy as [Ly Dy], Hm as [Lm Dm], Hd as [Ld Dd].
  unfold parse_Ymd, number_of. rewrite !chars_app.
  destruct (chars sy) as [|y1 [|y2 [|y3 [|y4 [|]]]]]; try discriminate.
  destruct (chars sm) as [|m1 [|m2 [|]]]; try discriminate.
  destruct (chars sd) as [|d1 [|d2 [|]]]; try discriminate.
  cbn [app chars forallb].
  repeat match goal with
         | H : Forall _ (_ :: _) |- _ => apply Forall_cons in H as [-> H]
         end.
  reflexivity.
Qed.

Lemma parse_fmt_date y m d :
  1 <= y <= 9999 → 1 <= m <= 31 → 1 <= d <= 31 →
  parse_Ymd (fmt_date (y, m, d)) = Some (y, m, d).
Proof.
  intros Hy Hm Hd. unfold fmt_date.
  pose proof (holds_on_spec 14 0 _ year_text_checked y) as Ty.
  pose proof (holds_on_spec 14 0 _ year_back_checked y) as By.
  pose proof (holds_on_spec 5 0 _ two_text_checked m) as Tm.
  pose proof (holds_on_spec 5 0 _ two_back_checked m) as Bm.
  pose proof (holds_on_spec 5 0 _ two_text_checked d) as Td.
  pose proof (holds_on_spec 5 0 _ two_back_checked d) as Bd.
  unfold year_text_ok, year_back_ok in Ty, By.
  unfold two_text_ok, two_back_ok in Tm, Bm, Td, Bd.
  destruct (Z.ltb_spec y 1), (Z.ltb_spec 9999 y); try lia.
  destruct (Z.ltb_spec m 1), (Z.ltb_spec 31 m); try lia.
  destruct (Z.ltb_spec d 1), (Z.ltb_spec 31 d); try lia.
  cbn [orb] in *.
  rewrite parse_Ymd_append by (first [apply Ty | apply Tm | apply Td]; simpl; lia).
  rewrite (proj1 (Z.eqb_eq _ _) (By ltac:(simpl; lia))).
  rewrite (proj1 (Z.eqb_eq _ _) (Bm ltac:(simpl; lia))).
  by rewrite (proj1 (Z.eqb_eq _ _) (Bd ltac:(simpl; lia))).
Qed.

(** Read back, the date string of an instant of the years 1 to 9999 is the
    date reached from 1970-01-01 by stepping through the calendar. *)
Lemma parse_strftime_Ymd t :
  in_years_1_9999 t → parse_Ymd (strftime_Ymd t) = Some (utc_calendar_date t).
Proof.
  unfold in_years_1_9999. intros Ht.
  unfold utc_calendar_date. rewrite date_after_days_civil. unfold strftime_Ymd.
  assert (Hn : -719162 <= t / 86400 <= 2932896)
    by (Z.div_mod_to_equations; lia).
  pose proof (civil_from_days_year_range _ Hn) as Hy.
  pose proof (civil_from_days_valid (t / 86400)) as (Hm & Hd).
  destruct (civil_from_days (t / 86400)) as [[y m] d]. cbn in *.
  assert (days_in_month y m <= 31)
    by (unfold days_in_month; repeat destruct (_ =? _); repeat destruct (is_leap _); cbn; lia).
  apply parse_fmt_date; lia.
Qed.

Lemma parse_strftime_Ymd_ns t :
  in_ns_range t → parse_Ymd (strftime_Ymd t) = Some (utc_calendar_date t).
Proof. intros Ht. by apply parse_strftime_Ymd, in_ns_range_years. Qed.

Lemma normalized_date_cell ts o h l c v i :
  cell_at "Date" i (normalized ts o h l c v)
  = (λ t, Val (JStr (strftime_Ymd t))) <$> ts !! i.
Proof. unfold cell_at. cbn. by rewrite list_lookup_fmap. Qed.

Lemma normalized_holds_date ts o h l c v i t :
  Forall in_ns_range ts → ts !! i = Some t →
  holds_date (utc_calendar_date t) (cell_at "Date" i (normalized ts o h l c v)).
Proof.
  intros Hr Hi. exists (strftime_Ymd t). rewrite normalized_date_cell, Hi.
  split; [reflexivity|]. apply parse_strftime_Ymd_ns.
  rewrite Forall_forall in Hr. apply Hr. by eapply list_elem_of_lookup_2.
Qed.

Lemma holds_date_unique d d' c : holds_date d c → holds_date d' c → d = d'.
Proof. intros (s & -> & P) (s' & [= <-] & P'). congruence. Qed.

Lemma conv_df_chart_response ts o h l c v :
  length o = length ts → length h = length ts → length l = length ts →
  length c = length ts → length v = length ts →
  Forall in_ns_range ts →
  conv_df (chart_response (JInt <$> ts)
             [("open", JArr o); ("high", JArr h); ("low", JArr l);
              ("close", JArr c); ("volume", JArr v)])
  = Return (normalized ts o h l c v).
Proof.
  intros Lo Lh Ll Lc Lv Hr.
  set (q := [("open", JArr o); ("high", JArr h); ("low", JArr l);
             ("close", JArr c); ("volume", JArr v)]).
  rewrite (conv_df_extract (chart_response (JInt <$> ts) q)
             (JObj [("timestamp", JArr (JInt <$> ts));
                    ("indicators", JObj [("quote", JArr [JObj q])])])
             (JArr (JInt <$> ts)) q eq_refl eq_refl eq_refl).
  by apply assemble_full.
Qed.

(** ** The full table *)

(** C1 (as stated, refuted). The response holds one timestamp and five
    arrays of length one, and [conv_df] returns no table: the timestamp is
    of the year 2286, past what [pd.to_datetime(unit='s')] converts. *)
Lemma conv_df_full_table_counterexample :
  let ts := [10000000000] in
  let q := [("open", JArr [JFloat 130]); ("high", JArr [JFloat 133]);
            ("low", JArr [JFloat 129]); ("close", JArr [JFloat 132]);
            ("volume", JArr [JInt 1000000])] in
  let r0 := JObj [("timestamp", JArr (JInt <$> ts));
                  ("indicators", JObj [("quote", JArr [JObj q])])] in
  result0 far_response = Return r0
  ∧ getitem_key "timestamp" r0 = Return (JArr (JInt <$> ts))
  ∧ quote0 r0 = Return (JObj q)
  ∧ (∀ k, k ∈ INDICATOR_KEYS → ∃ a, assoc k q = Some (JArr [a]))
  ∧ (∃ msg, conv_df far_response = Raise (OutOfBoundsDatetime msg))
  ∧ ¬ ∃ df, conv_df far_response = Return df.
Proof.
  split; [reflexivity|]. split; [reflexivity|]. split; [reflexivity|].
  split; [|split; [eexists; reflexivity|by intros [df [=]]]].
  intros k Hin. unfold INDICATOR_KEYS in Hin.
  rewrite !elem_of_cons, elem_of_nil in Hin.
  destruct Hin as [->|[->|[->|[->|[->|[]]]]]]; eexists; reflexivity.
Qed.

(** C1 (amended). For a response whose [chart.result[0]] holds [N] integer
    timestamps within the range of [datetime64[ns]] and whose quote holds
    the five indicator arrays, each of length [N], [conv_df] returns a frame
    of [N] rows with the columns Date, Open, High, Low, Close, Volume in
    this order; the Date of row [i] is the [%Y-%m-%d] form of timestamp
    [i], a string that reads as the UTC calendar date of the timestamp, and
    each indicator of row [i] is the element [i] of its array. *)
Theorem conv_df_full_table resp r0 q (ts : list Z) (o h l c v : list json) :
  result0 resp = Return r0 →
  getitem_key "timestamp" r0 = Return (JArr (JInt <$> ts)) →
  quote0 r0 = Return (JObj q) →
  assoc "open" q = Some (JArr o) → assoc "high" q = Some (JArr h) →
  assoc "low" q = Some (JArr l) → assoc "close" q = Some (JArr c) →
  assoc "volume" q = Some (JArr v) →
  length o = length ts → length h = length ts → length l = length ts →
  length c = length ts → length v = length ts →
  Forall in_ns_range ts →
  ∃ df, conv_df resp = Return df
    ∧ index_len df = length ts
    ∧ well_formed df
    ∧ column_names df = ["Date"; "Open"; "High"; "Low"; "Close"; "Volume"]
    ∧ (∀ i : nat,
         cell_at "Date" i df = (λ t, Val (JStr (strftime_Ymd t))) <$> ts !! i
         ∧ cell_at "Open" i df = Val <$> o !! i
         ∧ cell_at "High" i df = Val <$> h !! i
         ∧ cell_at "Low" i df = Val <$> l !! i
         ∧ cell_at "Close" i df = Val <$> c !! i
         ∧ cell_at "Volume" i df = Val <$> v !! i)
    ∧ (∀ (i : nat) t, ts !! i = Some t →
         holds_date (utc_calendar_date t) (cell_at "Date" i df)).
Proof.
  intros H0 Hts Hq Ho Hh Hl Hc Hv Lo Lh Ll Lc Lv Hr.
  exists (normalized ts o h l c v).
  rewrite (conv_df_extract _ _ _ _ H0 Hts Hq), Ho, Hh, Hl, Hc, Hv. cbn [default].
  split; [by apply assemble_full|].
  split; [reflexivity|].
  split; [by apply normalized_well_formed|].
  split; [reflexivity|].
  split.
  - intros i. unfold cell_at. cbn. by rewrite !list_lookup_fmap.
  - intros i t Hi. by apply normalized_holds_date.
Qed.

Lemma conv_df_full_table_witness :
  let resp := one_row_response in
  let r0 := JObj [("timestamp", JArr [JInt 1609459200]);
                  ("indicators", JObj [("quote", JArr [JObj
                     [("open", JArr [JFloat 130]); ("high", JArr [JFloat 133]);
                      ("low", JArr [JFloat 129]); ("close", JArr [JFloat 132]);
                      ("volume", JArr [JInt 1000000])]])])] in
  result0 resp = Return r0
  ∧ Forall in_ns_range [1609459200]
  ∧ ∃ df, conv_df resp = Return df
      ∧ index_len df = 1%nat
      ∧ well_formed df
      ∧ column_names df = ["Date"; "Open"; "High"; "Low"; "Close"; "Volume"]
      ∧ cell_at "Date" 0 df = Some (Val (JStr "2021-01-01"))
      ∧ cell_at "Open" 0 df = Some (Val (JFloat 130))
      ∧ cell_at "High" 0 df = Some (Val (JFloat 133))
      ∧ cell_at "Low" 0 df = Some (Val (JFloat 129))
      ∧ cell_at "Close" 0 df = Some (Val (JFloat 132))
      ∧ cell_at "Volume" 0 df = Some (Val (JInt 1000000))
      ∧ cell_at "Date" 1 df = None
      ∧ holds_date (2021, 1, 1) (cell_at "Date" 0 df).
Proof.
  assert (Hr : Forall in_ns_range [1609459200])
    by (apply Forall_singleton; unfold in_ns_range; lia).
  split; [reflexivity|]. split; [exact Hr|].
  destruct (conv_df_full_table one_row_response _ _ [1609459200]
              [JFloat 130] [JFloat 133] [JFloat 129] [JFloat 132] [JInt 1000000]
              eq_refl eq_refl eq_refl eq_refl eq_refl eq_refl eq_refl eq_refl
              eq_refl eq_refl eq_refl eq_refl eq_refl Hr)
    as (df & E & N & W & C & Cells & D).
  exists df. split; [exact E|]. split; [exact N|]. split; [exact W|].
  split; [exact C|].
  destruct (Cells 0%nat) as (C0 & C1 & C2 & C3 & C4 & C5).
  split; [exact C0|]. split; [exact C1|]. split; [exact C2|].
  split; [exact C3|]. split; [exact C4|]. split; [exact C5|].
  split; [exact (proj1 (Cells 1%nat))|].
  exact (D 0%nat 1609459200 eq_refl).
Defined.

(** ** The date of a row is its UTC date *)

(** C10. The Date string of a row reads as the UTC calendar date of the
    timestamp: the date reached from 1 January 1970 by stepping
    [floor (t / 86400)] days through the Gregorian calendar. This holds for
    every timestamp that gets a date string, those of the range of
    [datetime64[ns]]; a timestamp outside the range gets none, the
    conversion raises [OutOfBoundsDatetime]. [conv_df] puts the string in
    the Date cell of the row, and so does a fetch in a process of any time
    zone: where the local calendar date of the instant differs from the UTC
    date, the Date cell holds the UTC date and not the local one. *)
Theorem date_is_utc_calendar_date :
  (∀ t, in_ns_range t →
     ∃ s, to_datetime_s (Val (JInt t)) ≫= strftime_cell = Return (Val (JStr s))
          ∧ parse_Ymd s = Some (utc_calendar_date t))
  ∧ (∀ t, ¬ in_ns_range t →
       ∃ msg, to_datetime_s (Val (JInt t)) ≫= strftime_cell
              = Raise (OutOfBoundsDatetime msg))
  ∧ (∀ (ts : list Z) (o h l c v : list json),
       let q := [("open", JArr o); ("high", JArr h); ("low", JArr l);
                 ("close", JArr c); ("volume", JArr v)] in
       length o = length ts → length h = length ts → length l = length ts →
       length c = length ts → length v = length ts →
       Forall in_ns_range ts →
       ∃ df, conv_df (chart_response (JInt <$> ts) q) = Return df
         ∧ ∀ (i : nat) t, ts !! i = Some t →
             holds_date (utc_calendar_date t) (cell_at "Date" i df))
  ∧ (∀ K p0 p1 p2 p3 p4 p5 w tk st en iv event flag
       (ts : list Z) (o h l c v : list json),
       let q := [("open", JArr o); ("high", JArr h); ("low", JArr l);
                 ("close", JArr c); ("volume", JArr v)] in
       let rq := fetch_request (p0 +:+ py_str tk +:+ p1 +:+ py_str st +:+ p2
                                +:+ py_str en +:+ p3 +:+ iv +:+ p4 +:+ event
                                +:+ p5) in
       five_slot_template (API_URL K) p0 p1 p2 p3 p4 p5 →
       self_dict w !! "ticker" = Some tk → self_dict w !! "start" = Some st →
       self_dict w !! "end" = Some en →
       self_dict w !! "interval" = Some (PyStr iv) →
       iv ∈ DATE_INTERVALS K →
       remote w (sent w) rq = inr (chart_response (JInt <$> ts) q) →
       length o = length ts → length h = length ts → length l = length ts →
       length c = length ts → length v = length ts →
       Forall in_ns_range ts →
       ∃ df, (Fetcher._get K event flag w).1 = Return (output_mode flag df)
         ∧ ∀ (i : nat) t, ts !! i = Some t →
             holds_date (utc_calendar_date t) (cell_at "Date" i df)
             ∧ (local_calendar_date (utc_offset w) t ≠ utc_calendar_date t →
                ¬ holds_date (local_calendar_date (utc_offset w) t)
                    (cell_at "Date" i df))).
Proof.
  split; [|split; [|split]].
  - intros t Ht. exists (strftime_Ymd t).
    rewrite (to_datetime_s_in_range t Ht).
    split; [reflexivity | by apply parse_strftime_Ymd_ns].
  - intros t Ht. eexists. rewrite (to_datetime_s_out_of_range t Ht). reflexivity.
  - intros ts o h l c v q Lo Lh Ll Lc Lv Hr.
    exists (normalized ts o h l c v).
    split; [by apply conv_df_chart_response|].
    intros i t Hi. by apply normalized_holds_date.
  - intros K p0 p1 p2 p3 p4 p5 w tk st en iv event flag ts o h l c v q rq
      Ht Htk Hst Hen Hiv Hi Hrem Lo Lh Ll Lc Lv Hr.
    exists (normalized ts o h l c v). split.
    + rewrite (get_run_valid K _ _ _ _ _ _ w tk st en iv event flag
                 Ht Htk Hst Hen Hiv Hi).
      cbn [fst]. unfold answer. fold rq. rewrite Hrem.
      subst q. by rewrite conv_df_chart_response.
    + intros i t Hit.
      pose proof (normalized_holds_date ts o h l c v i t Hr Hit) as Hd.
      split; [exact Hd|].
      intros Hne Hl. apply Hne. exact (holds_date_unique _ _ _ Hl Hd).
Qed.

Lemma date_is_utc_calendar_date_witness :
  let K := example_constants in
  let w := with_utc_offset (-18000) (example_client "1d") in
  in_ns_range 1609459200
  ∧ utc_calendar_date 1609459200 = (2021, 1, 1)
  ∧ local_calendar_date (utc_offset w) 1609459200 = (2020, 12, 31)
  ∧ (∃ s, to_datetime_s (Val (JInt 1609459200)) ≫= strftime_cell
          = Return (Val (JStr s))
          ∧ s = "2021-01-01" ∧ parse_Ymd s = Some (2021, 1, 1))
  ∧ (∃ df, (Fetcher._get K "history" true w).1 = Return (Table df)
       ∧ cell_at "Date" 0 df = Some (Val (JStr "2021-01-01"))
       ∧ holds_date (2021, 1, 1) (cell_at "Date" 0 df)
       ∧ ¬ holds_date (2020, 12, 31) (cell_at "Date" 0 df)).
Proof.
  assert (Ht : in_ns_range 1609459200) by (unfold in_ns_range; lia).
  destruct date_is_utc_calendar_date as (A & _ & _ & D).
  split; [exact Ht|].
  split; [vm_compute; reflexivity|]. split; [vm_compute; reflexivity|].
  split.
  - destruct (A 1609459200 Ht) as (s & E & P). exists s.
    split; [exact E|]. split; [|exact P].
    vm_compute in E. by injection E as <-.
  - destruct (D example_constants _ _ _ _ _ _
                (with_utc_offset (-18000) (example_client "1d"))
                (PyStr "AAPL") (PyInt 1609459200) (PyInt 1609545600) "1d"
                "history" true [1609459200]
                [JFloat 130] [JFloat 133] [JFloat 129] [JFloat 132]
                [JInt 1000000] example_template
                eq_refl eq_refl eq_refl eq_refl)
      as (df & E & Hdf).
    + by apply (bool_decide_unpack _).
    + reflexivity.
    + reflexivity.
    + reflexivity.
    + reflexivity.
    + reflexivity.
    + reflexivity.
    + by apply Forall_singleton.
    + exists df. split; [exact E|].
      destruct (Hdf 0%nat 1609459200 eq_refl) as (H1 & H2).
      split; [|split; [exact H1|]].
      * vm_compute in E. injection E as <-. reflexivity.
      * apply H2. vm_compute. discriminate.
Defined.
